(** * sql_on_excel: a shallow embedding of [sql_on_excel.py]

    The command line tool stages CSV/XLSX files into SQLite database files
    kept in one storage directory, runs SQL against them and exports the
    result to a spreadsheet.  This development embeds the Python functions
    of the tool as Rocq functions over an explicit world (file system and
    standard output) and an error result, and proves properties of
    the identifier validator, the database life cycle, the import
    pipeline, the query runner and the dispatcher. *)

From Stdlib Require Import Ascii String NArith List Bool Lia Permutation.
From stdpp Require Import base option gmap strings.
Import ListNotations.

Local Open Scope string_scope.
Local Open Scope bool_scope.

(** Python's [+] on [str]. *)
Infix "+++" := String.append (at level 60, right associativity).

(* ===================================================================== *)
(** ** Python [str]

    A Python [str] is a sequence of Unicode code points.  A [string] here
    is read as a [str] whose code points are all below 256: the character
    [c : ascii] is the code point [N_of_ascii c] (Latin-1).  The character
    classes below are those of the Unicode database on that range. *)
(* ===================================================================== *)

Module Str.

Definition code (c : ascii) : N := N_of_ascii c.

Definition between (lo hi : N) (c : ascii) : bool :=
  (lo <=? code c)%N && (code c <=? hi)%N.

(** The characters of the class [[A-Za-z0-9_]]. *)
Definition ascii_digit (c : ascii) : bool := between 48 57 c.
Definition ascii_letter (c : ascii) : bool := between 65 90 c || between 97 122 c.
Definition underscore (c : ascii) : bool := (code c =? 95)%N.
Definition word_char (c : ascii) : bool :=
  ascii_letter c || ascii_digit c || underscore c.

(** [str.isdecimal], [str.isdigit], [str.isnumeric], [str.isalpha] on one
    character. Superscript digits are digits, vulgar fractions are
    numeric, accented Latin letters are alphabetic. *)
Definition isdecimal_char (c : ascii) : bool := between 48 57 c.
Definition isdigit_char (c : ascii) : bool :=
  between 48 57 c || between 178 179 c || between 185 185 c.
Definition isnumeric_char (c : ascii) : bool :=
  isdigit_char c || between 188 190 c.
Definition isalpha_char (c : ascii) : bool :=
  between 65 90 c || between 97 122 c
  || between 170 170 c || between 181 181 c || between 186 186 c
  || between 192 214 c || between 216 246 c || between 248 255 c.
Definition isalnum_char (c : ascii) : bool :=
  isalpha_char c || isdecimal_char c || isdigit_char c || isnumeric_char c.

Fixpoint all (p : ascii -> bool) (s : string) : bool :=
  match s with
  | EmptyString => true
  | String c r => p c && all p r
  end.

Fixpoint any (p : ascii -> bool) (s : string) : bool :=
  match s with
  | EmptyString => false
  | String c r => p c || any p r
  end.

(** Truth value of a [str]: the empty string is falsy. *)
Definition truthy (s : string) : bool :=
  match s with EmptyString => false | String _ _ => true end.

(** [s.isdigit()] and [s.isalnum()]: every character in the class and at
    least one character. *)
Definition isdigit (s : string) : bool := truthy s && all isdigit_char s.
Definition isalnum (s : string) : bool := truthy s && all isalnum_char s.

Fixpoint map (f : ascii -> ascii) (s : string) : string :=
  match s with
  | EmptyString => EmptyString
  | String c r => String (f c) (map f r)
  end.

(** [s.replace(old, new)] for one-character [old] and [new]. *)
Definition replace (old new : ascii) (s : string) : string :=
  map (fun c => if Ascii.eqb c old then new else c) s.

Definition lower_char (c : ascii) : ascii :=
  if between 65 90 c || between 192 214 c || between 216 222 c
  then ascii_of_N (code c + 32) else c.

(** [s.lower()]. *)
Definition lower (s : string) : string := map lower_char s.

Fixpoint drop (n : nat) (s : string) : string :=
  match n, s with
  | O, _ => s
  | S _, EmptyString => EmptyString
  | S n', String _ r => drop n' r
  end.

(** The slice [s[-n:]] for [n > 0]: the last [n] characters, the whole
    string when it is shorter. *)
Definition suffix (n : nat) (s : string) : string :=
  drop (String.length s - n) s.

Fixpoint last (s : string) : option ascii :=
  match s with
  | EmptyString => None
  | String c EmptyString => Some c
  | String _ r => last r
  end.

Definition starts_with_sep (s : string) : bool :=
  match s with String "/" _ => true | _ => false end.

Definition ends_with_sep (s : string) : bool :=
  match last s with Some "/"%char => true | _ => false end.

(** [sep.join(l)]. *)
Fixpoint join (sep : string) (l : list string) : string :=
  match l with
  | [] => ""
  | [x] => x
  | x :: r => x +++ sep +++ join sep r
  end.

(** The grammar [[A-Za-z_][A-Za-z0-9_]*]. *)
Definition identifier (s : string) : bool :=
  match s with
  | EmptyString => false
  | String c r => (ascii_letter c || underscore c) && all word_char r
  end.

End Str.

(* ===================================================================== *)
(** ** Exceptions and results *)
(* ===================================================================== *)

(** The exceptions the program raises itself ([Exception], [TypeError],
    with their message) and those that reach it from the interpreter and
    the libraries. *)
Inductive exn : Type :=
| Exception (msg : string)
| TypeError (msg : string)
| IndexError
| AttributeError
| FileNotFoundError
| NotADirectoryError
| IsADirectoryError
| OSError
| UnicodeDecodeError
| OperationalError            (* sqlite3.OperationalError *)
| DatabaseError               (* pandas.io.sql.DatabaseError *)
| LibraryError (what : string).

Inductive Res (A : Type) : Type :=
| Ok (a : A)
| Raise (e : exn).
Arguments Ok {A} a.
Arguments Raise {A} e.

(** [l[i]] on a Python list. *)
Definition index {A : Type} (l : list A) (i : nat) : Res A :=
  match nth_error l i with
  | Some x => Ok x
  | None => Raise IndexError
  end.

(* ===================================================================== *)
(** ** The identifier validator *)
(* ===================================================================== *)

Definition msg_lead_digit (type_ entity : string) : string :=
  "Invalid " +++ Str.lower type_ +++ " " +++ entity +++ "." +++ " "
    +++ type_ +++ " name cannot lead with a digit".

Definition msg_only_alnum (type_ entity : string) : string :=
  "Invalid " +++ Str.lower type_ +++ " " +++ entity +++ "." +++ " "
    +++ type_ +++ " must contain only numbers and letters.".

(** [check_sqlite_entity_syntax(entity, type_)]: returns normally or
    raises. *)
Definition check_sqlite_entity_syntax (entity type_ : string) : Res unit :=
  if Str.isdigit entity then
    Raise (Exception (msg_lead_digit type_ entity))
  else
    let entity_check := Str.replace "_" "A" entity in
    if negb (Str.isalnum entity_check) then
      Raise (Exception (msg_only_alnum type_ entity))
    else Ok tt.

(** The error kind InvalidIdentifier: one of the two messages of the
    validator, naming the identifier and its role. *)
Definition InvalidIdentifier (type_ entity : string) (e : exn) : Prop :=
  e = Exception (msg_lead_digit type_ entity)
  \/ e = Exception (msg_only_alnum type_ entity).

(* ===================================================================== *)
(** ** Tables, files and the world *)
(* ===================================================================== *)

(** A cell of a data frame or of a table. *)
Inductive value : Type :=
| VNull
| VInt (z : Z)
| VStr (s : string).

(** A column label: text, or a number when a spreadsheet header cell holds
    one. *)
Inductive label : Type :=
| LStr (s : string)
| LNum (n : Z).

Definition column : Type := label * list value.

(** A pandas [DataFrame]: the row index and the columns in order. *)
Record DataFrame : Type := mkFrame {
  df_index : list value;
  df_columns : list column
}.

(** An SQLite database: its tables, by name. *)
Definition Database : Type := list (string * list column).

Inductive content : Type :=
| Sqlite (db : Database)
| Sheet (cols : list column)
| Text (lines : list string).

Inductive node : Type :=
| Dir
| File (c : content).

(** What is printed: a line of text, or the rows a cursor fetched. *)
Inductive printed : Type :=
| Line (s : string)
| Rows (names : list string).

(** The world of the program: the file system, as a map from paths to
    nodes, and the standard output, most recent line last. *)
Record World : Type := mkWorld {
  entries : gmap string node;
  stdout : list printed
}.

Definition set_entries (f : gmap string node -> gmap string node) (w : World) : World :=
  mkWorld (f (entries w)) (stdout w).

(** ** The monad of the program: state and exceptions.  The world reached
    when an exception is raised is kept. *)
Definition M (A : Type) : Type := World -> Res A * World.

Definition ret {A : Type} (a : A) : M A := fun w => (Ok a, w).

Definition raise {A : Type} (e : exn) : M A := fun w => (Raise e, w).

Definition bind {A B : Type} (m : M A) (k : A -> M B) : M B :=
  fun w =>
    match m w with
    | (Ok a, w') => k a w'
    | (Raise e, w') => (Raise e, w')
    end.

Notation "'let*' x ':=' m 'in' k" := (bind m (fun x => k))
  (at level 10, x name, m at level 100, k at level 200,
   format "'[v' 'let*'  x  ':='  m  'in' '/' k ']'").

Notation "m ';;' k" := (bind m (fun _ => k))
  (at level 100, k at level 200, right associativity).

(** A pure computation that may raise. *)
Definition lift {A : Type} (r : Res A) : M A := fun w => (r, w).

(** [try: m except h]: the handler [h] selects the exceptions it catches. *)
Definition try_except {A : Type} (m : M A) (h : exn -> option (M A)) : M A :=
  fun w =>
    match m w with
    | (Ok a, w') => (Ok a, w')
    | (Raise e, w') =>
        match h e with
        | Some k => k w'
        | None => (Raise e, w')
        end
    end.

(** [for x in l: body(x)]. *)
Fixpoint for_each {A : Type} (l : list A) (body : A -> M unit) : M unit :=
  match l with
  | [] => ret tt
  | x :: r => body x ;; for_each r body
  end.

(** [print(a, b, ...)]: the arguments separated by one space. *)
Definition print (args : list string) : M unit :=
  fun w => (Ok tt, mkWorld (entries w) (stdout w ++ [Line (Str.join " " args)])).

Definition print_rows (names : list string) : M unit :=
  fun w => (Ok tt, mkWorld (entries w) (stdout w ++ [Rows names])).

(** ["'{}'".format(s)]. *)
Definition quoted (s : string) : string := "'" +++ s +++ "'".

(* ===================================================================== *)
(** ** The operating system: [os], [os.path], [shutil] *)
(* ===================================================================== *)

Module Os.

Definition is_sep (c : ascii) : bool := Ascii.eqb c "/".

(** [os.path.join(a, b)] (POSIX). *)
Definition path_join (a b : string) : string :=
  if Str.starts_with_sep b then b
  else if negb (Str.truthy a) || Str.ends_with_sep a then a +++ b
  else a +++ "/" +++ b.

(** [s.rstrip('/')]. *)
Fixpoint rstrip_sep (s : string) : string :=
  match s with
  | EmptyString => EmptyString
  | String c r =>
      match rstrip_sep r with
      | EmptyString => if is_sep c then EmptyString else String c EmptyString
      | r' => String c r'
      end
  end.

(** [p[:p.rfind('/') + 1]]: up to the last separator, if any. *)
Fixpoint head (p : string) : string :=
  match p with
  | EmptyString => EmptyString
  | String c r =>
      match head r with
      | EmptyString => if is_sep c then String c EmptyString else EmptyString
      | h => String c h
      end
  end.

(** [os.path.dirname(p)]. *)
Definition dirname (p : string) : string :=
  let h := head p in
  match rstrip_sep h with
  | EmptyString => h
  | h' => h'
  end.

(** The root directory, however many separators spell it. *)
Definition is_root (p : string) : bool :=
  Str.truthy p && Str.all is_sep p.

Definition isdir (fs : gmap string node) (d : string) : bool :=
  match fs !! d with
  | Some Dir => true
  | Some (File _) => false
  | None => is_root d
  end.

(** The directory a new file at [p] is created in exists; a bare file
    name is created in the working directory. *)
Definition parent_exists (fs : gmap string node) (p : string) : bool :=
  match dirname p with
  | EmptyString => true
  | d => isdir fs d
  end.

(** [os.path.exists(p)]. *)
Definition path_exists (p : string) : M bool :=
  fun w =>
    (Ok (match entries w !! p with Some _ => true | None => is_root p end), w).

(** [os.makedirs(p)]. *)
Definition makedirs (p : string) : M unit :=
  fun w =>
    match entries w !! p with
    | Some _ => (Raise OSError, w)
    | None => (Ok tt, set_entries (insert p Dir) w)
    end.

(** [os.remove(p)].  A missing [p] is taken to lie in a directory that can
    be reached; where a component of [p] is a regular file the system
    raises [NotADirectoryError] instead, a case the statements about a
    missing file exclude by their hypotheses. *)
Definition remove (p : string) : M unit :=
  fun w =>
    match entries w !! p with
    | Some (File _) => (Ok tt, set_entries (delete p) w)
    | Some Dir => (Raise IsADirectoryError, w)
    | None => (Raise FileNotFoundError, w)
    end.

Fixpoint strip_prefix (p s : string) : option string :=
  match p, s with
  | EmptyString, _ => Some s
  | String _ _, EmptyString => None
  | String a p', String b s' =>
      if Ascii.eqb a b then strip_prefix p' s' else None
  end.

(** The name of [k] inside directory [d], when [k] is directly in it. *)
Definition child_name (d k : string) : option string :=
  match strip_prefix (path_join d "") k with
  | Some n => if Str.truthy n && negb (Str.any is_sep n) then Some n else None
  | None => None
  end.

Definition children (fs : gmap string node) (d : string) : list string :=
  omap (fun kv => child_name d (fst kv)) (map_to_list fs).

(** [os.listdir(d)]. *)
Definition listdir (d : string) : M (list string) :=
  fun w =>
    match entries w !! d with
    | Some Dir => (Ok (children (entries w) d), w)
    | Some (File _) => (Raise OSError, w)
    | None =>
        if is_root d then (Ok (children (entries w) d), w)
        else (Raise FileNotFoundError, w)
    end.

(** [k] is [d] or lies below it. *)
Definition under (d k : string) : bool :=
  String.eqb d k
  || match strip_prefix (path_join d "") k with Some _ => true | None => false end.

(** [shutil.rmtree(d)]. *)
Definition rmtree (d : string) : M unit :=
  fun w =>
    match entries w !! d with
    | Some Dir =>
        (Ok tt, set_entries (filter (fun kv => under d (fst kv) = false)) w)
    | Some (File _) => (Raise OSError, w)
    | None => (Raise FileNotFoundError, w)
    end.

(** What stands before each separator of [p], read after [acc]: the paths
    that have to be directories for [p] to be reached. *)
Fixpoint ancestors_from (acc p : string) : list string :=
  match p with
  | EmptyString => []
  | String c r =>
      (if is_sep c then [acc] else [])
      ++ ancestors_from (acc +++ String c EmptyString) r
  end.

Definition ancestors (p : string) : list string := ancestors_from "" p.

(** A component of [p] is a regular file. *)
Definition below_file (fs : gmap string node) (p : string) : bool :=
  existsb (fun a => match fs !! a with Some (File _) => true | _ => false end)
    (ancestors p).

(** [open(p, 'r').readlines()].  A missing path below a regular file is
    [NotADirectoryError], any other missing path [FileNotFoundError]. *)
Definition readlines (p : string) : M (list string) :=
  fun w =>
    match entries w !! p with
    | Some (File (Text lines)) => (Ok lines, w)
    | Some (File _) => (Raise UnicodeDecodeError, w)
    | Some Dir => (Raise IsADirectoryError, w)
    | None =>
        if below_file (entries w) p then (Raise NotADirectoryError, w)
        else (Raise FileNotFoundError, w)
    end.

End Os.

(* ===================================================================== *)
(** ** The libraries: [sqlite3] and [pandas]

    What the tabular-data library reads from a file, what the SQL engine
    answers to a query and what it writes for a new table are taken as
    given: the program is verified for every such behaviour.  The engine
    is taken to act on the database it was opened on: a statement that
    reaches another file ([ATTACH DATABASE], [VACUUM INTO]) is outside the
    model, and no property below speaks of the files a query leaves
    alone. *)
(* ===================================================================== *)

Class Libs : Type := {
  (** [pd.read_csv(path)] *)
  read_csv : gmap string node -> string -> Res DataFrame;
  (** [pd.read_excel(path)] and [pd.read_excel(path, sheet_name = s)] *)
  read_excel : gmap string node -> string -> option string -> Res DataFrame;
  (** the engine running a query text on a database: the result and the
      database it leaves *)
  sql_engine : string -> Database -> Res DataFrame * Database;
  (** the engine creating table [name] from a frame, [if_exists='fail'] *)
  sql_create : DataFrame -> string -> Database -> Res unit * Database
}.

Module Sqlite3.

(** A connection is the path of the database file it was opened on. *)
Definition connection : Type := string.

(** [sqlite3.connect(p)]: opens the file at [p], creating an empty
    database file when there is none and its directory exists. *)
Definition connect (p : string) : M connection :=
  fun w =>
    match entries w !! p with
    | Some (File _) => (Ok p, w)
    | Some Dir => (Raise OperationalError, w)
    | None =>
        if Os.parent_exists (entries w) p
        then (Ok p, set_entries (insert p (File (Sqlite []))) w)
        else (Raise OperationalError, w)
    end.

(** [conn.close()]. *)
Definition close (conn : connection) : M unit := ret tt.

(** [cursor.execute("SELECT name FROM sqlite_master WHERE type='table';")]
    followed by [cursor.fetchall()]. *)
Definition table_names (conn : connection) : M (list string) :=
  fun w =>
    match entries w !! conn with
    | Some (File (Sqlite db)) => (Ok (map fst db), w)
    | _ => (Raise DatabaseError, w)
    end.

End Sqlite3.

Module Pd.
Section WithLibs.
Context {L : Libs}.

Definition pd_read_csv (path : string) : M DataFrame :=
  fun w => (read_csv (entries w) path, w).

Definition pd_read_excel (path : string) (sheet_name : option string) : M DataFrame :=
  fun w => (read_excel (entries w) path sheet_name, w).

(** [pd.read_sql_query(query, conn)]. *)
Definition read_sql_query (query : string) (conn : Sqlite3.connection) : M DataFrame :=
  fun w =>
    match entries w !! conn with
    | Some (File (Sqlite db)) =>
        let (r, db') := sql_engine query db in
        (r, set_entries (insert conn (File (Sqlite db'))) w)
    | _ => (Raise DatabaseError, w)
    end.

(** [data.to_sql(name=name, con=conn, if_exists='fail')]. *)
Definition to_sql (data : DataFrame) (name : string) (conn : Sqlite3.connection) : M unit :=
  fun w =>
    match entries w !! conn with
    | Some (File (Sqlite db)) =>
        let (r, db') := sql_create data name db in
        (r, set_entries (insert conn (File (Sqlite db'))) w)
    | _ => (Raise DatabaseError, w)
    end.

End WithLibs.

Definition label_is (s : string) (l : label) : bool :=
  match l with
  | LStr t => String.eqb s t
  | LNum _ => false
  end.

(** [s in frame.columns]. *)
Definition has_column (s : string) (frame : DataFrame) : bool :=
  existsb (fun c => label_is s (fst c)) (df_columns frame).

(** The columns that are left when those labelled [s] are taken out. *)
Definition without (s : string) (cols : list column) : list column :=
  List.filter (fun c => negb (label_is s (fst c))) cols.

(** [frame.drop(s, inplace = True, axis = 1)]: every column labelled [s]
    goes; raises [KeyError] when there is none. *)
Definition drop (s : string) (frame : DataFrame) : Res DataFrame :=
  if has_column s frame
  then Ok (mkFrame (df_index frame) (without s (df_columns frame)))
  else Raise (LibraryError "KeyError").

(** The columns a frame is written with: the row index first when
    [index] is set. *)
Definition written_columns (frame : DataFrame) (index : bool) : list column :=
  (if index then [(LStr "", df_index frame)] else []) ++ df_columns frame.

(** [frame.to_excel(path, index = index)]. *)
Definition to_excel (frame : DataFrame) (path : string) (index : bool) : M unit :=
  fun w =>
    match entries w !! path with
    | Some Dir => (Raise IsADirectoryError, w)
    | _ =>
        if Os.parent_exists (entries w) path
        then (Ok tt, set_entries (insert path (File (Sheet (written_columns frame index)))) w)
        else (Raise OSError, w)
    end.

End Pd.

(* ===================================================================== *)
(** ** The program *)
(* ===================================================================== *)

Definition msg_no_db_delete (db_name : string) : string :=
  "There is no database with the name " +++ db_name
    +++ ". Did you specify the correct name of the Database you want to delete?".

Definition msg_no_db_import (db_name : string) : string :=
  "There is no database with the name " +++ db_name
    +++ ". Did you create the database before importing the file?".

Definition msg_no_db_query (db_name : string) : string :=
  "There is no database with the name " +++ db_name
    +++ ". Did you create the database before running the query?".

Definition msg_query_error (db_name : string) : string :=
  "There is an error in the query. Did you import the table from an excel file into "
    +++ db_name +++ "?".

Definition msg_sheet_with_csv : string :=
  "Cannot pass in a sheet name with a CSV file".

Definition msg_unsupported : string :=
  "Unsuported File extension. Supported formats are .xlsx and .csv".

Definition msg_empty_query : string :=
  "The given file holding the query is empty.".

(** The double quote character. *)
Definition dquote : string := String (ascii_of_nat 34) EmptyString.

Definition msg_not_understood : string :=
  "is not understood, so know data was deleted. Can supply fourth positional argument "
    +++ dquote +++ "clear" +++ dquote
    +++ " to --execute_query to delete the Database after running a query".

(** [argparse.Namespace] as the entry point fills it. *)
Record Namespace : Type := mkNamespace {
  build_db_name : option string;
  delete_db_name : option string;
  file_to_import_args : option (list string);
  query_to_execute : option (list string);
  list_table_db_name : option string;
  list_all_db_name : bool;
  clear_all_data : bool
}.

Section Program.
Context {L : Libs}.

(** [build_db(db_name, current_path, db_folder)] *)
Definition build_db (db_name current_path db_folder : string) : M unit :=
  let* present := Os.path_exists db_folder in
  (if Bool.eqb present false then Os.makedirs db_folder else ret tt) ;;
  let db_file := db_name +++ ".db" in
  let db_path := Os.path_join db_folder db_file in
  let* conn := Sqlite3.connect db_path in
  Sqlite3.close conn ;;
  print ["Successfully created SQLite Database "; quoted db_file].

(** [delete_db_path(db_name, db_folder)] *)
Definition delete_db_path (db_name db_folder : string) : M unit :=
  let db_file := db_name +++ ".db" in
  let full_db_path := Os.path_join db_folder db_file in
  try_except
    (Os.remove full_db_path ;;
     print ["Successfully deleted SQLite Database "; quoted db_file])
    (fun e =>
       match e with
       | FileNotFoundError => Some (raise (Exception (msg_no_db_delete db_name)))
       | _ => None
       end).

(** The validator applied to a column label; a label that is a number
    has no [isdigit]. *)
Definition check_label (col : label) (type_ : string) : Res unit :=
  match col with
  | LStr s => check_sqlite_entity_syntax s type_
  | LNum _ => Raise AttributeError
  end.

(** [import_file_to_db(import_file_args, db_folder)] *)
Definition import_file_to_db (import_file_args : list string) (db_folder : string) : M unit :=
  let* db_name := lift (index import_file_args 0) in
  let* data_path := lift (index import_file_args 1) in
  let* table_name := lift (index import_file_args 2) in
  lift (check_sqlite_entity_syntax table_name "Table") ;;
  let* data :=
    if String.eqb (Str.suffix 3 data_path) "csv" then
      let* a2 := lift (index import_file_args 2) in
      if Str.truthy a2 then raise (TypeError msg_sheet_with_csv)
      else Pd.pd_read_csv data_path
    else if String.eqb (Str.suffix 4 data_path) "xlsx" then
      if Nat.eqb (length import_file_args) 4 then
        let* a3 := lift (index import_file_args 3) in
        Pd.pd_read_excel data_path (Some a3)
      else Pd.pd_read_excel data_path None
    else raise (TypeError msg_unsupported) in
  for_each (df_columns data) (fun col => lift (check_label (fst col) "Column")) ;;
  let* db_name := lift (index import_file_args 0) in
  let db_file := db_name +++ ".db" in
  let db_path := Os.path_join db_folder db_file in
  let* names := Os.listdir db_folder in
  let db_exists := existsb (fun db_file_name => String.eqb db_file_name db_file) names in
  let* conn :=
    if db_exists then Sqlite3.connect db_path
    else raise (Exception (msg_no_db_import db_name)) in
  let* a2 := lift (index import_file_args 2) in
  Pd.to_sql data a2 conn ;;
  Sqlite3.close conn ;;
  let* a1 := lift (index import_file_args 1) in
  print ["Successfully imported file "; quoted a1; "to"; quoted db_file].

(** [get_query(user_query)] *)
Definition get_query (user_query : string) : M string :=
  if String.eqb (Str.suffix 4 user_query) ".txt" then
    let* all_lines := Os.readlines user_query in
    if Nat.eqb (length all_lines) 0 then raise (Exception msg_empty_query)
    else ret (Str.join "" all_lines)
  else ret user_query.

(** [execute_query(execute_query_args, db_folder)] *)
Definition execute_query (execute_query_args : list string) (db_folder : string) : M unit :=
  let* a0 := lift (index execute_query_args 0) in
  let* query := get_query a0 in
  let* output_dir := lift (index execute_query_args 1) in
  let* a2 := lift (index execute_query_args 2) in
  let output_name := a2 +++ ".xlsx" in
  let* db_name := lift (index execute_query_args 3) in
  let db_file := db_name +++ ".db" in
  let db_path := Os.path_join db_folder db_file in
  let* conn :=
    try_except (Sqlite3.connect db_path)
      (fun e =>
         match e with
         | OperationalError => Some (raise (Exception (msg_no_db_query db_name)))
         | _ => None
         end) in
  let output_path := Os.path_join output_dir output_name in
  let* result :=
    try_except (Pd.read_sql_query query conn)
      (fun e =>
         match e with
         | DatabaseError => Some (raise (Exception (msg_query_error db_name)))
         | _ => None
         end) in
  let* result :=
    if Pd.has_column "index" result then lift (Pd.drop "index" result)
    else ret result in
  Pd.to_excel result output_path false ;;
  Sqlite3.close conn ;;
  print ["Query ran succesfully. Output found at"; output_path] ;;
  if Nat.eqb (length execute_query_args) 5 then
    let* a4 := lift (index execute_query_args 4) in
    if String.eqb a4 "clear" then delete_db_path db_name db_folder
    else print ["The fifth argument"; a4; msg_not_understood]
  else ret tt.

(** [list_db(db_folder)] *)
Definition list_db (db_folder : string) : M unit :=
  let* names := Os.listdir db_folder in
  for_each names (fun db => print [db]).

(** [list_tables(db_name, db_folder)] *)
Definition list_tables (db_name db_folder : string) : M unit :=
  let db_file_name := db_name +++ ".db" in
  let db_path := Os.path_join db_folder db_file_name in
  let* conn :=
    try_except (Sqlite3.connect db_path)
      (fun e =>
         match e with
         | OperationalError => Some (raise (Exception (msg_no_db_query db_name)))
         | _ => None
         end) in
  let* rows := Sqlite3.table_names conn in
  print_rows rows ;;
  Sqlite3.close conn.

(** [main(args)]; [current_path] is the directory the program file is
    in. *)
Definition main (args : Namespace) (current_path : string) : M unit :=
  let db_folder := Os.path_join current_path "Databases" in
  match build_db_name args with
  | Some n => build_db n current_path db_folder
  | None => ret tt
  end ;;
  match delete_db_name args with
  | Some n => delete_db_path n db_folder
  | None => ret tt
  end ;;
  match file_to_import_args args with
  | Some a => import_file_to_db a db_folder
  | None => ret tt
  end ;;
  match query_to_execute args with
  | Some a => execute_query a db_folder
  | None => ret tt
  end ;;
  (if clear_all_data args then
     Os.rmtree db_folder ;;
     print ["Data from all SQlite Databases are deleted."]
   else ret tt) ;;
  (if list_all_db_name args then list_db db_folder else ret tt) ;;
  match list_table_db_name args with
  | Some n => if Str.truthy n then list_tables n db_folder else ret tt
  | None => ret tt
  end.

End Program.

(* ===================================================================== *)
(** ** The command line and the dispatcher *)
(* ===================================================================== *)

(** One option of the command line with its arguments, as the parser of
    the entry point declares them. *)
Inductive flag : Type :=
| FlagBuild (name : string)            (* -b NAME *)
| FlagDelete (name : string)           (* -d NAME *)
| FlagImport (args : list string)      (* -i DB FILE TABLE [SHEET] *)
| FlagExecute (args : list string)     (* -e QUERY OUTDIR OUTNAME DB [clear] *)
| FlagListTables (name : string)       (* -lt DB *)
| FlagListDb                           (* -ld *)
| FlagClear.                           (* -c *)

Inductive operation : Type :=
| BuildDatabase
| DeleteDatabase
| ImportFile
| ExecuteQuery
| ClearAllData
| ListDatabases
| ListTables.

Definition flag_operation (f : flag) : operation :=
  match f with
  | FlagBuild _ => BuildDatabase
  | FlagDelete _ => DeleteDatabase
  | FlagImport _ => ImportFile
  | FlagExecute _ => ExecuteQuery
  | FlagListTables _ => ListTables
  | FlagListDb => ListDatabases
  | FlagClear => ClearAllData
  end.

(** The namespace before any option is seen: the defaults. *)
Definition no_args : Namespace :=
  mkNamespace None None None None None false false.

(** The action of one option on the namespace: it stores its value under
    its [dest]. *)
Definition store (ns : Namespace) (f : flag) : Namespace :=
  match f with
  | FlagBuild n =>
      mkNamespace (Some n) (delete_db_name ns) (file_to_import_args ns)
        (query_to_execute ns) (list_table_db_name ns) (list_all_db_name ns)
        (clear_all_data ns)
  | FlagDelete n =>
      mkNamespace (build_db_name ns) (Some n) (file_to_import_args ns)
        (query_to_execute ns) (list_table_db_name ns) (list_all_db_name ns)
        (clear_all_data ns)
  | FlagImport a =>
      mkNamespace (build_db_name ns) (delete_db_name ns) (Some a)
        (query_to_execute ns) (list_table_db_name ns) (list_all_db_name ns)
        (clear_all_data ns)
  | FlagExecute a =>
      mkNamespace (build_db_name ns) (delete_db_name ns) (file_to_import_args ns)
        (Some a) (list_table_db_name ns) (list_all_db_name ns)
        (clear_all_data ns)
  | FlagListTables n =>
      mkNamespace (build_db_name ns) (delete_db_name ns) (file_to_import_args ns)
        (query_to_execute ns) (Some n) (list_all_db_name ns)
        (clear_all_data ns)
  | FlagListDb =>
      mkNamespace (build_db_name ns) (delete_db_name ns) (file_to_import_args ns)
        (query_to_execute ns) (list_table_db_name ns) true
        (clear_all_data ns)
  | FlagClear =>
      mkNamespace (build_db_name ns) (delete_db_name ns) (file_to_import_args ns)
        (query_to_execute ns) (list_table_db_name ns) (list_all_db_name ns)
        true
  end.

(** [parser.parse_args()] on the options in the order they were typed. *)
Definition parse_args (argv : list flag) : Namespace :=
  fold_left store argv no_args.

(** The order of the dispatcher as the specification lists it. *)
Definition fixed_order : list operation :=
  [BuildDatabase; DeleteDatabase; ImportFile; ExecuteQuery; ClearAllData;
   ListDatabases; ListTables].

(** The operation is asked for: the test [main] puts before it. *)
Definition requested (args : Namespace) (op : operation) : bool :=
  match op with
  | BuildDatabase => match build_db_name args with Some _ => true | None => false end
  | DeleteDatabase => match delete_db_name args with Some _ => true | None => false end
  | ImportFile => match file_to_import_args args with Some _ => true | None => false end
  | ExecuteQuery => match query_to_execute args with Some _ => true | None => false end
  | ClearAllData => clear_all_data args
  | ListDatabases => list_all_db_name args
  | ListTables =>
      match list_table_db_name args with
      | Some n => Str.truthy n
      | None => false
      end
  end.

Section Dispatcher.
Context {L : Libs}.

(** One operation, with the arguments the namespace holds for it. *)
Definition perform (args : Namespace) (current_path : string) (op : operation) : M unit :=
  let db_folder := Os.path_join current_path "Databases" in
  match op with
  | BuildDatabase =>
      match build_db_name args with
      | Some n => build_db n current_path db_folder
      | None => ret tt
      end
  | DeleteDatabase =>
      match delete_db_name args with
      | Some n => delete_db_path n db_folder
      | None => ret tt
      end
  | ImportFile =>
      match file_to_import_args args with
      | Some a => import_file_to_db a db_folder
      | None => ret tt
      end
  | ExecuteQuery =>
      match query_to_execute args with
      | Some a => execute_query a db_folder
      | None => ret tt
      end
  | ClearAllData =>
      Os.rmtree db_folder ;;
      print ["Data from all SQlite Databases are deleted."]
  | ListDatabases => list_db db_folder
  | ListTables =>
      match list_table_db_name args with
      | Some n => list_tables n db_folder
      | None => ret tt
      end
  end.

(** The dispatcher in the words of the specification: the requested
    operations, and only those, one after the other in the fixed order,
    stopping at the first that raises. *)
Definition dispatch_in_fixed_order (args : Namespace) (current_path : string) : M unit :=
  for_each (List.filter (requested args) fixed_order) (perform args current_path).

End Dispatcher.

(* ===================================================================== *)
(** ** Concrete libraries and worlds, for the examples *)
(* ===================================================================== *)

Module Demo.

(** The name "caf" followed by U+00E9, e with acute accent. *)
Definition cafe : string := "caf" +++ String (ascii_of_nat 233) EmptyString.

Definition rows_of (cols : list column) : nat :=
  match cols with
  | [] => 0
  | c :: _ => length (snd c)
  end.

(** The default row index of a frame: 0, 1, ... *)
Definition range_index (cols : list column) : list value :=
  List.map (fun i => VInt (Z.of_nat i)) (seq 0 (rows_of cols)).

Definition frame_of (cols : list column) : DataFrame :=
  mkFrame (range_index cols) cols.

Definition find_table (name : string) (db : Database) : option (list column) :=
  match List.find (fun t => String.eqb (fst t) name) db with
  | Some t => Some (snd t)
  | None => None
  end.

Definition read_sheet (fs : gmap string node) (path : string) : Res DataFrame :=
  match fs !! path with
  | Some (File (Sheet cols)) => Ok (frame_of cols)
  | Some _ => Raise (LibraryError "ParserError")
  | None => Raise FileNotFoundError
  end.

(** An engine that knows two queries, and stores a frame with its row
    index in a column named [index]. *)
Definition libs : Libs := {|
  read_csv := read_sheet;
  read_excel := fun fs path _ => read_sheet fs path;
  sql_engine := fun query db =>
    if String.eqb query "SELECT 1" then
      (Ok (frame_of [(LStr "1", [VInt 1])]), db)
    else if String.eqb query "SELECT * FROM orders" then
      match find_table "orders" db with
      | Some cols => (Ok (frame_of cols), db)
      | None => (Raise DatabaseError, db)
      end
    else (Raise DatabaseError, db);
  sql_create := fun data name db =>
    match find_table name db with
    | Some _ => (Raise (LibraryError "ValueError"), db)
    | None => (Ok tt, (db ++ [(name, (LStr "index", df_index data) :: df_columns data)])%list)
    end
|}.

Definition orders : list column :=
  [(LStr "index", [VInt 0; VInt 1]);
   (LStr "item", [VStr "pen"; VStr "ink"]);
   (LStr "qty", [VInt 2; VInt 5])].

Definition folder : string := "/app/Databases".

(** A storage directory holding the database [sales] with the table
    [orders], next to a directory for the output. *)
Definition world : World :=
  mkWorld
    (<["/app/Databases" := Dir]>
     (<["/app/Databases/sales.db" := File (Sqlite [("orders", orders)])]>
     (<["/tmp" := Dir]>
     (<["/tmp/empty.txt" := File (Text [])]>
     (<["/tmp/book.xlsx" := File (Sheet [(LStr "item", [VStr "pen"]); (LStr "unit price", [VInt 3])])]>
      ∅)))))
    [].

End Demo.

(* ===================================================================== *)
(** ** Tactics *)
(* ===================================================================== *)

(** Case analysis over the 256 characters. *)
Ltac each_char c :=
  destruct c as [[] [] [] [] [] [] [] []];
  vm_compute; intros; try reflexivity; try discriminate.

(** Every exception a handler of the program catches is turned into a
    raise. *)
Ltac handler_raises :=
  let e := fresh in let k := fresh in
  intros e k; destruct e; intros [= <-]; eauto.

(* ===================================================================== *)
(** * Properties *)
(* ===================================================================== *)

(** ** Characters and strings *)

(** The code points below 256 that [str.isdigit] and [str.isalnum]
    accept. *)
Example isdigit_code_points :
  List.filter (fun n => Str.isdigit_char (ascii_of_nat n)) (seq 0 256)
  = (seq 48 10 ++ [178; 179; 185])%list.
Proof. vm_compute. reflexivity. Qed.

Example isalnum_code_points :
  List.filter (fun n => Str.isalnum_char (ascii_of_nat n)) (seq 0 256)
  = (seq 48 10 ++ seq 65 26 ++ seq 97 26
     ++ [170; 178; 179; 181; 185; 186; 188; 189; 190]
     ++ seq 192 23 ++ seq 216 31 ++ seq 248 8)%list.
Proof. vm_compute. reflexivity. Qed.

Lemma digit_is_isdigit (c : ascii) :
  Str.ascii_digit c = true -> Str.isdigit_char c = true.
Proof.
  unfold Str.ascii_digit, Str.isdigit_char. intros ->. reflexivity.
Qed.

Lemma word_char_replaced_isalnum (c : ascii) :
  Str.word_char c = true ->
  Str.isalnum_char (if Ascii.eqb c "_" then "A"%char else c) = true.
Proof. each_char c. Qed.

Lemma non_alnum_replaced (c : ascii) :
  Str.isalnum_char c || Str.underscore c = false ->
  Str.isalnum_char (if Ascii.eqb c "_" then "A"%char else c) = false.
Proof. each_char c. Qed.

Lemma initial_not_isdigit (c : ascii) :
  Str.ascii_letter c || Str.underscore c = true -> Str.isdigit_char c = false.
Proof. each_char c. Qed.

Lemma initial_is_word_char (c : ascii) :
  Str.ascii_letter c || Str.underscore c = true -> Str.word_char c = true.
Proof. each_char c. Qed.

Lemma ascii_outside_class (c : ascii) :
  (Str.code c <? 128)%N && negb (Str.word_char c) = true ->
  negb (Str.isalnum_char c || Str.underscore c) = true.
Proof. each_char c. Qed.

Lemma all_impl (p q : ascii -> bool) (s : string) :
  (forall c, p c = true -> q c = true) ->
  Str.all p s = true -> Str.all q s = true.
Proof.
  intros Hpq. induction s as [|c r IH]; simpl; [reflexivity|].
  rewrite !andb_true_iff. intros [Hc Hr]. split; [apply Hpq, Hc | apply IH, Hr].
Qed.

Lemma any_impl (p q : ascii -> bool) (s : string) :
  (forall c, p c = true -> q c = true) ->
  Str.any p s = true -> Str.any q s = true.
Proof.
  intros Hpq. induction s as [|c r IH]; simpl; [discriminate|].
  rewrite !orb_true_iff. intros [Hc | Hr]; [left; apply Hpq, Hc | right; apply IH, Hr].
Qed.

Lemma all_word_replaced (s : string) :
  Str.all Str.word_char s = true ->
  Str.all Str.isalnum_char (Str.replace "_" "A" s) = true.
Proof.
  induction s as [|c r IH]; simpl; [reflexivity|].
  rewrite !andb_true_iff. intros [Hc Hr]. split.
  - apply word_char_replaced_isalnum, Hc.
  - apply IH, Hr.
Qed.

Lemma any_non_alnum_replaced (s : string) :
  Str.any (fun c => negb (Str.isalnum_char c || Str.underscore c)) s = true ->
  Str.all Str.isalnum_char (Str.replace "_" "A" s) = false.
Proof.
  induction s as [|c r IH]; simpl; [discriminate|].
  rewrite orb_true_iff, andb_false_iff, negb_true_iff.
  intros [Hc | Hr]; [left; apply non_alnum_replaced, Hc | right; apply IH, Hr].
Qed.

(** The validator either returns or raises one of its two messages. *)
Lemma check_cases (entity type_ : string) :
  check_sqlite_entity_syntax entity type_ = Ok tt
  \/ exists e, check_sqlite_entity_syntax entity type_ = Raise e
               /\ InvalidIdentifier type_ entity e.
Proof.
  unfold check_sqlite_entity_syntax, InvalidIdentifier.
  destruct (Str.isdigit entity); [right; eauto|].
  destruct (Str.isalnum _); simpl; [left; reflexivity | right; eauto].
Qed.

Lemma check_raises (entity type_ : string) :
  check_sqlite_entity_syntax entity type_ <> Ok tt ->
  exists e, check_sqlite_entity_syntax entity type_ = Raise e
            /\ InvalidIdentifier type_ entity e.
Proof.
  intros H. destruct (check_cases entity type_) as [E | E]; [contradiction | exact E].
Qed.

Lemma check_not_alnum (entity type_ : string) :
  Str.isalnum (Str.replace "_" "A" entity) = false ->
  check_sqlite_entity_syntax entity type_ <> Ok tt.
Proof.
  unfold check_sqlite_entity_syntax. intros ->.
  destruct (Str.isdigit entity); discriminate.
Qed.

(** ** The identifier validator *)

(** C3 (as the code has it): the validator raises InvalidIdentifier for
    every identifier made of the digits 0-9 only, and for every identifier
    with a character that is neither an underscore nor alphanumeric in the
    sense of [str.isalnum], which covers every ASCII character outside
    [[A-Za-z0-9_]]; it returns for every identifier matching
    [[A-Za-z_][A-Za-z0-9_]*]. *)
Theorem identifier_validation (entity type_ : string) :
  (Str.all Str.ascii_digit entity = true ->
     exists e, check_sqlite_entity_syntax entity type_ = Raise e
               /\ InvalidIdentifier type_ entity e)
  /\ (Str.any (fun c => negb (Str.isalnum_char c || Str.underscore c)) entity = true ->
     exists e, check_sqlite_entity_syntax entity type_ = Raise e
               /\ InvalidIdentifier type_ entity e)
  /\ (Str.any (fun c => (Str.code c <? 128)%N && negb (Str.word_char c)) entity = true ->
     exists e, check_sqlite_entity_syntax entity type_ = Raise e
               /\ InvalidIdentifier type_ entity e)
  /\ (Str.identifier entity = true ->
     check_sqlite_entity_syntax entity type_ = Ok tt).
Proof.
  assert (Hbad : Str.any (fun c => negb (Str.isalnum_char c || Str.underscore c)) entity = true ->
                 check_sqlite_entity_syntax entity type_ <> Ok tt).
  { intros H. apply check_not_alnum. unfold Str.isalnum.
    rewrite (any_non_alnum_replaced _ H). apply andb_false_r. }
  split; [|split; [|split]].
  - intros Hd. apply check_raises. unfold check_sqlite_entity_syntax.
    destruct entity as [|c r]; [discriminate|].
    unfold Str.isdigit. simpl Str.truthy.
    rewrite (all_impl _ _ _ digit_is_isdigit Hd). discriminate.
  - intros H. apply check_raises, Hbad, H.
  - intros H. apply check_raises, Hbad.
    revert H. apply any_impl. exact ascii_outside_class.
  - destruct entity as [|c r]; [discriminate|]. simpl.
    rewrite andb_true_iff. intros [Hc Hr].
    unfold check_sqlite_entity_syntax, Str.isdigit, Str.isalnum. simpl.
    rewrite (initial_not_isdigit _ Hc). simpl.
    rewrite (word_char_replaced_isalnum _ (initial_is_word_char _ Hc)).
    fold (Str.replace "_" "A" r). rewrite (all_word_replaced _ Hr). reflexivity.
Qed.

(** The validator on ["2020"], ["unit price"] and ["_qty1"]. *)
Lemma identifier_validation_witness :
  (exists e, check_sqlite_entity_syntax "2020" "Column" = Raise e
             /\ InvalidIdentifier "Column" "2020" e)
  /\ (exists e, check_sqlite_entity_syntax "unit price" "Column" = Raise e
                /\ InvalidIdentifier "Column" "unit price" e)
  /\ check_sqlite_entity_syntax "_qty1" "Column" = Ok tt.
Proof.
  split; [|split].
  - exact (proj1 (identifier_validation "2020" "Column") eq_refl).
  - exact (proj1 (proj2 (proj2 (identifier_validation "unit price" "Column"))) eq_refl).
  - exact (proj2 (proj2 (proj2 (identifier_validation "_qty1" "Column"))) eq_refl).
Defined.

(** C3 as stated fails: ["caf"] followed by U+00E9 holds a character
    outside [[A-Za-z0-9_]] and the validator returns without raising. *)
Lemma accented_identifier_accepted :
  Str.any (fun c => negb (Str.word_char c)) Demo.cafe = true
  /\ check_sqlite_entity_syntax Demo.cafe "Table" = Ok tt.
Proof. split; reflexivity. Qed.

(** C10: the empty identifier is rejected with the message of the second
    test, though it has no character outside [[A-Za-z0-9_]] and
    [isdigit] is false on it. *)
Theorem empty_identifier_rejected (type_ : string) :
  check_sqlite_entity_syntax "" type_ = Raise (Exception (msg_only_alnum type_ ""))
  /\ InvalidIdentifier type_ "" (Exception (msg_only_alnum type_ ""))
  /\ Str.any (fun c => negb (Str.word_char c)) "" = false
  /\ Str.isdigit "" = false.
Proof.
  repeat split. right. reflexivity.
Qed.

(** ** Slices and paths *)

Lemma drop_length_append (a b : string) :
  Str.drop (String.length a) (a +++ b) = b.
Proof. induction a as [|c r IH]; [destruct b; reflexivity | exact IH]. Qed.

Lemma length_append (a b : string) :
  String.length (a +++ b) = String.length a + String.length b.
Proof. induction a as [|c r IH]; simpl; [reflexivity | now rewrite IH]. Qed.

(** [(a + b)[-len(b):] == b] *)
Lemma suffix_append (a b : string) :
  Str.suffix (String.length b) (a +++ b) = b.
Proof.
  unfold Str.suffix. rewrite length_append.
  replace (String.length a + String.length b - String.length b)
    with (String.length a) by lia.
  apply drop_length_append.
Qed.

Lemma last_append (a b : string) :
  Str.truthy b = true -> Str.last (a +++ b) = Str.last b.
Proof.
  intros Hb. induction a as [|c r IH]; [reflexivity|].
  simpl. rewrite IH. destruct (r +++ b) eqn:E; [|reflexivity].
  destruct r; [change (b = "") in E; subst b|]; discriminate.
Qed.

(** A joined path ends as its second component does. *)
Lemma last_path_join (a b : string) :
  Str.truthy b = true -> Str.last (Os.path_join a b) = Str.last b.
Proof.
  intros Hb. unfold Os.path_join.
  destruct (Str.starts_with_sep b); [reflexivity|].
  destruct (negb (Str.truthy a) || Str.ends_with_sep a).
  - apply last_append, Hb.
  - rewrite last_append; [apply last_append, Hb|].
    destruct b; [discriminate | reflexivity].
Qed.

(** The spreadsheet a query is exported to is never a database file of
    the storage directory: one path ends in [x], the other in [b]. *)
Lemma output_path_not_db_path (output_dir output db_folder db_name : string) :
  Os.path_join output_dir (output +++ ".xlsx")
  <> Os.path_join db_folder (db_name +++ ".db").
Proof.
  intros E. apply (f_equal Str.last) in E.
  rewrite !last_path_join in E.
  - rewrite !last_append in E by reflexivity. discriminate.
  - destruct db_name; reflexivity.
  - destruct output; reflexivity.
Qed.

(** ** Deleting a database *)

Lemma delete_existing (db_name db_folder : string) (w : World) (c : content) :
  let p := Os.path_join db_folder (db_name +++ ".db") in
  entries w !! p = Some (File c) ->
  delete_db_path db_name db_folder w
  = (Ok tt,
     mkWorld (delete p (entries w))
       (stdout w ++ [Line (Str.join " " ["Successfully deleted SQLite Database ";
                                        quoted (db_name +++ ".db")])])).
Proof.
  intros p Hc. unfold delete_db_path, try_except, bind, Os.remove. fold p.
  rewrite Hc. reflexivity.
Qed.

Lemma delete_missing (db_name db_folder : string) (w : World) :
  entries w !! Os.path_join db_folder (db_name +++ ".db") = None ->
  delete_db_path db_name db_folder w
  = (Raise (Exception (msg_no_db_delete db_name)), w).
Proof.
  intros Hnone. unfold delete_db_path, try_except, bind, Os.remove.
  rewrite Hnone. reflexivity.
Qed.

(** ** The import pipeline *)

(** A name the validator accepts is not empty, hence truthy. *)
Lemma valid_name_truthy (entity type_ : string) :
  check_sqlite_entity_syntax entity type_ = Ok tt -> Str.truthy entity = true.
Proof. destruct entity; [discriminate | reflexivity]. Qed.

Lemma append_assoc (a b c : string) : (a +++ b) +++ c = a +++ b +++ c.
Proof.
  induction a as [|x r IH]; [reflexivity|].
  change (String x ((r +++ b) +++ c) = String x (r +++ b +++ c)). now rewrite IH.
Qed.

(** A path with the extension [.csv] has [path[-3:] == 'csv']. *)
Lemma suffix_csv (stem : string) : Str.suffix 3 (stem +++ ".csv") = "csv".
Proof.
  change (stem +++ ".csv") with (stem +++ "." +++ "csv").
  rewrite <- append_assoc. exact (suffix_append (stem +++ ".") "csv").
Qed.

(** Every import whose source path ends in [csv] and whose table name is
    valid stops at the test on [import_file_args[2]], with or without a
    sheet name, and reads nothing. *)
Lemma import_csv_rejected `{L : Libs} (db data_path table : string) (rest : list string)
    (db_folder : string) (w : World) :
  check_sqlite_entity_syntax table "Table" = Ok tt ->
  Str.suffix 3 data_path = "csv" ->
  import_file_to_db (db :: data_path :: table :: rest) db_folder w
  = (Raise (TypeError msg_sheet_with_csv), w).
Proof.
  intros Ht Hcsv. unfold import_file_to_db, bind, lift. cbn [index nth_error].
  rewrite Ht, Hcsv. cbn [String.eqb Ascii.eqb Bool.eqb].
  rewrite (valid_name_truthy _ _ Ht). reflexivity.
Qed.

(** C1 (the code at the failing input): importing [orders.csv] as table
    [orders] with no sheet name is rejected with the error kept for a sheet
    name passed with a CSV file; the file is not read. *)
Theorem import_csv_without_sheet_rejected `{L : Libs} (db_folder : string) (w : World) :
  import_file_to_db ["sales"; "orders.csv"; "orders"] db_folder w
  = (Raise (TypeError "Cannot pass in a sheet name with a CSV file"), w).
Proof. apply import_csv_rejected; reflexivity. Qed.

(** The loop over the column labels stops at the first label the validator
    refuses and leaves the world as it was. *)
Lemma for_each_check_fails (cols : list column) (col : column) (w : World) :
  In col cols ->
  check_label (fst col) "Column" <> Ok tt ->
  exists e, for_each cols (fun c w0 => (check_label (fst c) "Column", w0)) w
            = (Raise e, w).
Proof.
  intros Hin Hbad. induction cols as [|c r IH]; [destruct Hin|].
  cbn [for_each]. unfold bind.
  destruct (check_label (fst c) "Column") as [[]|e] eqn:Ec; [|eauto].
  destruct Hin as [-> | Hin]; [congruence | exact (IH Hin)].
Qed.

(** C8: when the table name violates the identifier rule, or the extension
    is neither [csv] nor [xlsx], or a column label of the frame read from
    the file violates the rule, the import raises and the world, with every
    database file in it, is what it was before the call. *)
Theorem import_validation_before_write `{L : Libs}
    (db data_path table : string) (rest : list string)
    (db_folder : string) (w : World) :
  let args := db :: data_path :: table :: rest in
  check_sqlite_entity_syntax table "Table" <> Ok tt
  \/ (Str.suffix 3 data_path <> "csv" /\ Str.suffix 4 data_path <> "xlsx")
  \/ (exists data col,
        read_excel (entries w) data_path
          (if Nat.eqb (length args) 4 then nth_error args 3 else None) = Ok data
        /\ In col (df_columns data)
        /\ check_label (fst col) "Column" <> Ok tt) ->
  exists e, import_file_to_db args db_folder w = (Raise e, w).
Proof.
  intros args H. unfold args in *. clear args.
  unfold import_file_to_db, bind, lift. cbn [index nth_error].
  destruct (check_sqlite_entity_syntax table "Table") as [[]|e] eqn:Ht; [|eauto].
  destruct H as [H | [[Hc Hx] | (data & col & Hread & Hin & Hbad)]]; [congruence| |].
  - apply String.eqb_neq in Hc, Hx. rewrite Hc, Hx. eauto.
  - destruct (Str.suffix 3 data_path =? "csv").
    { rewrite (valid_name_truthy _ _ Ht). eauto. }
    destruct (Str.suffix 4 data_path =? "xlsx"); [|eauto].
    destruct (for_each_check_fails _ _ w Hin Hbad) as [e He].
    destruct (length (db :: data_path :: table :: rest) =? 4)%nat eqn:El.
    + destruct rest as [|a3 rest]; [discriminate|].
      cbn [index nth_error] in *. unfold Pd.pd_read_excel.
      rewrite Hread, He. eauto.
    + unfold Pd.pd_read_excel. rewrite Hread, He. eauto.
Qed.

(** Imports that fail validation in the example world: a table name of
    digits, a text file, and a spreadsheet with the header [unit price]. *)
Lemma import_validation_before_write_witness :
  (exists e, @import_file_to_db Demo.libs ["sales"; "/tmp/book.xlsx"; "2020"]
               Demo.folder Demo.world = (Raise e, Demo.world))
  /\ (exists e, @import_file_to_db Demo.libs ["sales"; "/tmp/empty.txt"; "notes"]
                  Demo.folder Demo.world = (Raise e, Demo.world))
  /\ (exists e, @import_file_to_db Demo.libs ["sales"; "/tmp/book.xlsx"; "book"]
                  Demo.folder Demo.world = (Raise e, Demo.world)).
Proof.
  split; [|split].
  - apply (@import_validation_before_write Demo.libs). left. discriminate.
  - apply (@import_validation_before_write Demo.libs). right. left.
    split; discriminate.
  - apply (@import_validation_before_write Demo.libs). right. right.
    exists (Demo.frame_of [(LStr "item", [VStr "pen"]); (LStr "unit price", [VInt 3])]).
    exists (LStr "unit price", [VInt 3]).
    split; [reflexivity|]. split; [right; left; reflexivity | discriminate].
Defined.

(** ** The monad, step by step *)

Lemma world_eq (w w' : World) :
  entries w = entries w' -> stdout w = stdout w' -> w = w'.
Proof. destruct w, w'. simpl. intros -> ->. reflexivity. Qed.

Lemma bind_Ok_inv {A B : Type} (m : M A) (k : A -> M B) (w w' : World) (b : B) :
  bind m k w = (Ok b, w') ->
  exists a w1, m w = (Ok a, w1) /\ k a w1 = (Ok b, w').
Proof.
  unfold bind. destruct (m w) as [[a|e] w1]; [eauto | discriminate].
Qed.

Lemma lift_Ok_inv {A : Type} (r : Res A) (w w' : World) (a : A) :
  lift r w = (Ok a, w') -> r = Ok a /\ w' = w.
Proof. unfold lift. intros [= -> ->]. auto. Qed.

(** Resolving the query reads at most one file and changes nothing. *)
Lemma get_query_world (user_query : string) (w w' : World) (r : Res string) :
  get_query user_query w = (r, w') -> w' = w.
Proof.
  unfold get_query, bind, Os.readlines, raise, ret.
  destruct (Str.suffix 4 user_query =? ".txt"); [|now intros [= _ <-]].
  destruct (entries w !! user_query) as [[|[]]|]; try now intros [= _ <-].
  - destruct (length lines =? 0)%nat; now intros [= _ <-].
  - destruct (Os.below_file (entries w) user_query); now intros [= _ <-].
Qed.

(** ** Opening a connection *)

(** The entries after [sqlite3.connect(p)] went through: an absent file has
    been created empty. *)
Lemma connect_Ok_inv (p : string) (h : exn -> option (M Sqlite3.connection))
    (w w1 : World) (conn : Sqlite3.connection) :
  (forall e k, h e = Some k -> exists e', k = raise e') ->
  try_except (Sqlite3.connect p) h w = (Ok conn, w1) ->
  conn = p
  /\ stdout w1 = stdout w
  /\ ((exists c, entries w !! p = Some (File c) /\ entries w1 = entries w)
      \/ (entries w !! p = None /\ Os.parent_exists (entries w) p = true
          /\ entries w1 = <[p := File (Sqlite [])]> (entries w))).
Proof.
  intros Hh. unfold try_except, Sqlite3.connect.
  assert (Hraise : forall e, match h e with Some k => k w | None => (Raise e, w) end
                             <> (Ok conn, w1)).
  { intros e. destruct (h e) as [k|] eqn:Ek; [|discriminate].
    destruct (Hh _ _ Ek) as [e' ->]. discriminate. }
  destruct (entries w !! p) as [[|c]|] eqn:Ep.
  - intros H. destruct (Hraise _ H).
  - intros [= <- <-]. eauto 10.
  - destruct (Os.parent_exists (entries w) p) eqn:Epar.
    + intros [= <- <-]. simpl. eauto 10.
    + intros H. destruct (Hraise _ H).
Qed.

(** ** Running the query and writing the spreadsheet *)

Lemma read_sql_query_Ok_inv `{L : Libs} (query : string) (p : Sqlite3.connection)
    (h : exn -> option (M DataFrame)) (w w1 : World) (frame : DataFrame) :
  (forall e k, h e = Some k -> exists e', k = raise e') ->
  try_except (Pd.read_sql_query query p) h w = (Ok frame, w1) ->
  exists db,
    entries w !! p = Some (File (Sqlite db))
    /\ fst (sql_engine query db) = Ok frame
    /\ entries w1 = <[p := File (Sqlite (snd (sql_engine query db)))]> (entries w)
    /\ stdout w1 = stdout w.
Proof.
  intros Hh. unfold try_except, Pd.read_sql_query.
  assert (Hraise : forall e w0, match h e with Some k => k w0 | None => (Raise e, w0) end
                                <> (Ok frame, w1)).
  { intros e w0. destruct (h e) as [k|] eqn:Ek; [|discriminate].
    destruct (Hh _ _ Ek) as [e' ->]. discriminate. }
  destruct (entries w !! p) as [[|[db| |]]|];
    try (intros H; destruct (Hraise _ _ H)).
  destruct (sql_engine query db) as [[f|e] db'] eqn:E.
  - intros [= <- <-]. exists db. rewrite E. repeat split.
  - intros H. destruct (Hraise _ _ H).
Qed.

Lemma without_id (cols : list column) :
  existsb (fun c => Pd.label_is "index" (fst c)) cols = false ->
  Pd.without "index" cols = cols.
Proof.
  induction cols as [|c r IH]; [reflexivity|]. simpl.
  rewrite orb_false_iff. intros [-> Hr]. simpl. now rewrite (IH Hr).
Qed.

Lemma without_sound (cols : list column) (c : column) :
  In c (Pd.without "index" cols) -> fst c <> LStr "index".
Proof.
  unfold Pd.without. rewrite filter_In. intros [_ H] E.
  rewrite E in H. discriminate.
Qed.

Lemma drop_index_Ok_inv (result result' : DataFrame) (w w1 : World) :
  (if Pd.has_column "index" result then lift (Pd.drop "index" result) else ret result) w
  = (Ok result', w1) ->
  w1 = w /\ df_columns result' = Pd.without "index" (df_columns result).
Proof.
  unfold Pd.drop, lift, ret. destruct (Pd.has_column "index" result) eqn:E.
  - intros [= <- <-]. auto.
  - intros [= <- <-]. split; [reflexivity|]. symmetry. apply without_id, E.
Qed.

Lemma to_excel_Ok_inv (frame : DataFrame) (path : string) (i : bool) (w w1 : World) :
  Pd.to_excel frame path i w = (Ok tt, w1) ->
  w1 = set_entries (insert path (File (Sheet (Pd.written_columns frame i)))) w.
Proof.
  unfold Pd.to_excel.
  destruct (entries w !! path) as [[|c]|]; [discriminate| |];
    (destruct (Os.parent_exists (entries w) path); [now intros [= <-] | discriminate]).
Qed.

(** A run of [execute_query] with four arguments that returns has resolved
    the query text, run it on the database found at the path (the empty
    one when the file was absent), and left the world with the database as
    the engine left it, the spreadsheet without [index] columns, and one
    more line printed. *)
Lemma export_Ok `{L : Libs} (q od on dbn db_folder : string) (w w1 : World) :
  execute_query [q; od; on; dbn] db_folder w = (Ok tt, w1) ->
  let dbp := Os.path_join db_folder (dbn +++ ".db") in
  let out := Os.path_join od (on +++ ".xlsx") in
  exists query db frame,
    get_query q w = (Ok query, w)
    /\ (entries w !! dbp = Some (File (Sqlite db))
        \/ (entries w !! dbp = None /\ db = []))
    /\ fst (sql_engine query db) = Ok frame
    /\ w1 = mkWorld
              (<[out := File (Sheet (Pd.without "index" (df_columns frame)))]>
                 (<[dbp := File (Sqlite (snd (sql_engine query db)))]> (entries w)))
              (stdout w ++ [Line (Str.join " " ["Query ran succesfully. Output found at"; out])]).
Proof.
  intros H dbp out. unfold execute_query in H. cbn [index nth_error] in H.
  fold dbp out in H.
  apply bind_Ok_inv in H as (a0 & w0 & H0 & H). apply lift_Ok_inv in H0 as [[= <-] ->].
  apply bind_Ok_inv in H as (query & wq & Hq & H).
  pose proof (get_query_world _ _ _ _ Hq) as ->.
  apply bind_Ok_inv in H as (a1 & w0 & H0 & H). apply lift_Ok_inv in H0 as [[= <-] ->].
  apply bind_Ok_inv in H as (a2 & w0 & H0 & H). apply lift_Ok_inv in H0 as [[= <-] ->].
  apply bind_Ok_inv in H as (a3 & w0 & H0 & H). apply lift_Ok_inv in H0 as [[= <-] ->].
  apply bind_Ok_inv in H as (conn & wc & Hc & H).
  apply connect_Ok_inv in Hc as (-> & Hcout & Hcent); [|handler_raises].
  apply bind_Ok_inv in H as (result & wr & Hr & H).
  apply read_sql_query_Ok_inv in Hr as (db & Hdb & Hframe & Hrent & Hrout); [|handler_raises].
  apply bind_Ok_inv in H as (result' & wd & Hd & H).
  apply drop_index_Ok_inv in Hd as [-> Hcols].
  apply bind_Ok_inv in H as ([] & we & He & H).
  apply to_excel_Ok_inv in He as ->.
  apply bind_Ok_inv in H as ([] & wcl & Hcl & H). injection Hcl as <-.
  apply bind_Ok_inv in H as ([] & wp & Hp & H). injection Hp as <-.
  injection H as <-.
  exists query, db, result. split; [exact Hq|].
  split; [|split; [exact Hframe|]].
  - destruct Hcent as [(c & Hc & Heq) | (Hnone & _ & Heq)].
    + left. rewrite Heq in Hdb. exact Hdb.
    + right. split; [exact Hnone|]. rewrite Heq, lookup_insert_eq in Hdb. congruence.
  - apply world_eq; simpl; [|now rewrite Hrout, Hcout].
    unfold Pd.written_columns. simpl. rewrite Hcols, Hrent. f_equal.
    destruct Hcent as [(c & Hc & Heq) | (Hnone & _ & Heq)]; rewrite Heq;
      [reflexivity | apply insert_insert_eq].
Qed.

(** ** The fifth argument *)

(** What [execute_query] does with the arguments after the fourth, once the
    export is done. *)
Lemma execute_query_directive `{L : Libs} (q od on dbn : string) (rest : list string)
    (db_folder : string) (w : World) :
  execute_query (q :: od :: on :: dbn :: rest) db_folder w
  = match execute_query [q; od; on; dbn] db_folder w with
    | (Ok _, w1) =>
        match rest with
        | [a4] =>
            if a4 =? "clear" then delete_db_path dbn db_folder w1
            else print ["The fifth argument"; a4; msg_not_understood] w1
        | _ => (Ok tt, w1)
        end
    | (Raise e, w1) => (Raise e, w1)
    end.
Proof.
  unfold execute_query, bind, lift. cbn [index nth_error].
  destruct (get_query q w) as [[query|e] wq]; [|reflexivity].
  destruct (try_except (Sqlite3.connect _) _ wq) as [[conn|e] wc]; [|reflexivity].
  destruct (try_except (Pd.read_sql_query _ _) _ wc) as [[result|e] wr]; [|reflexivity].
  destruct (Pd.has_column "index" result);
    [destruct (Pd.drop "index" result) as [result'|e]; [|reflexivity] | unfold ret];
    cbv beta iota.
  all: destruct (Pd.to_excel _ _ _ wr) as [[[]|e] we]; [|reflexivity].
  all: unfold Sqlite3.close, ret, print.
  all: destruct rest as [|a4 [|a5 rest]]; [reflexivity| |reflexivity].
  all: cbn [length Nat.eqb index nth_error]; destruct (a4 =? "clear"); reflexivity.
Qed.

(** After a successful export the database file is there. *)
Lemma export_Ok_db_file `{L : Libs} (q od on dbn db_folder : string) (w w1 : World) :
  execute_query [q; od; on; dbn] db_folder w = (Ok tt, w1) ->
  exists db, entries w1 !! Os.path_join db_folder (dbn +++ ".db") = Some (File (Sqlite db)).
Proof.
  intros H. apply export_Ok in H as (query & db & frame & _ & _ & _ & ->).
  eexists. simpl. rewrite lookup_insert_ne by apply output_path_not_db_path.
  apply lookup_insert_eq.
Qed.

(** C6 (as the code has it): when the export of a run has completed (the
    run with the first four arguments returns, in world [w1]) and exactly
    five arguments are given, a fifth argument equal to [clear] deletes the
    database file and returns; any other fifth argument leaves every file
    as the export left it, prints the warning and returns.  With more than
    five arguments the fifth is ignored, whatever it is: the run ends as
    the export did. *)
Theorem execute_query_fifth_argument `{L : Libs} (q od on dbn a4 db_folder : string)
    (w w1 : World) :
  execute_query [q; od; on; dbn] db_folder w = (Ok tt, w1) ->
  let dbp := Os.path_join db_folder (dbn +++ ".db") in
  (exists db, entries w1 !! dbp = Some (File (Sqlite db)))
  /\ (a4 = "clear" ->
      execute_query [q; od; on; dbn; a4] db_folder w
      = (Ok tt,
         mkWorld (delete dbp (entries w1))
           (stdout w1 ++ [Line (Str.join " " ["Successfully deleted SQLite Database ";
                                             quoted (dbn +++ ".db")])]))
      /\ delete dbp (entries w1) !! dbp = None)
  /\ (a4 <> "clear" ->
      execute_query [q; od; on; dbn; a4] db_folder w
      = (Ok tt,
         mkWorld (entries w1)
           (stdout w1 ++ [Line (Str.join " " ["The fifth argument"; a4; msg_not_understood])])))
  /\ (forall a5 more,
        execute_query (q :: od :: on :: dbn :: a4 :: a5 :: more) db_folder w = (Ok tt, w1)).
Proof.
  intros H dbp. destruct (export_Ok_db_file _ _ _ _ _ _ _ H) as [db Hdb].
  fold dbp in Hdb. split; [eauto|]. split; [|split].
  - intros ->. rewrite execute_query_directive, H. cbn [String.eqb Ascii.eqb Bool.eqb].
    split; [exact (delete_existing _ _ _ _ Hdb) | apply lookup_delete_eq].
  - intros Hne. rewrite execute_query_directive, H.
    apply String.eqb_neq in Hne. rewrite Hne. reflexivity.
  - intros a5 more. rewrite execute_query_directive, H. reflexivity.
Qed.

(** In the example world: the query on the database [sales] with [clear]
    and with [keep] as fifth argument. *)
Lemma execute_query_fifth_argument_witness :
  let w1 := snd (@execute_query Demo.libs
                   ["SELECT * FROM orders"; "/tmp"; "out"; "sales"] Demo.folder Demo.world) in
  (@execute_query Demo.libs ["SELECT * FROM orders"; "/tmp"; "out"; "sales"; "clear"]
     Demo.folder Demo.world
   = (Ok tt,
      mkWorld (delete "/app/Databases/sales.db" (entries w1))
        (stdout w1 ++ [Line "Successfully deleted SQLite Database  'sales.db'"]))
   /\ delete "/app/Databases/sales.db" (entries w1) !! "/app/Databases/sales.db" = None)
  /\ @execute_query Demo.libs ["SELECT * FROM orders"; "/tmp"; "out"; "sales"; "keep"]
       Demo.folder Demo.world
     = (Ok tt,
        mkWorld (entries w1)
          (stdout w1 ++ [Line (Str.join " " ["The fifth argument"; "keep"; msg_not_understood])])).
Proof.
  intros w1.
  assert (H : @execute_query Demo.libs ["SELECT * FROM orders"; "/tmp"; "out"; "sales"]
                Demo.folder Demo.world = (Ok tt, w1)) by (vm_compute; reflexivity).
  split.
  - exact (proj1 (proj2 (@execute_query_fifth_argument Demo.libs _ _ _ _ "clear" _ _ _ H))
             eq_refl).
  - apply (proj1 (proj2 (proj2 (@execute_query_fifth_argument Demo.libs _ _ _ _ "keep" _ _ _ H)))).
    discriminate.
Defined.

(** C6 as stated fails: with a sixth argument after [clear] the export
    completes, the fifth argument is [clear], and the database file is
    still there; nothing is printed about it. *)
Lemma sixth_argument_disables_clear :
  let args := ["SELECT * FROM orders"; "/tmp"; "out"; "sales"; "clear"; "now"] in
  let r := @execute_query Demo.libs args Demo.folder Demo.world in
  nth_error args 4 = Some "clear"
  /\ fst r = Ok tt
  /\ entries (snd r) !! "/app/Databases/sales.db"
     = Some (File (Sqlite [("orders", Demo.orders)]))
  /\ stdout (snd r) = [Line "Query ran succesfully. Output found at /tmp/out.xlsx"].
Proof. vm_compute. repeat split. Qed.

(** ** The exported spreadsheet *)

(** C7: when [execute_query] returns, the file at the output path is the
    spreadsheet of the columns of the query result in their order, without
    those labelled [index] and with no column for the row index. *)
Theorem export_has_no_index_column `{L : Libs} (q od on dbn : string)
    (rest : list string) (db_folder : string) (w w' : World) :
  execute_query (q :: od :: on :: dbn :: rest) db_folder w = (Ok tt, w') ->
  exists query db frame,
    fst (sql_engine query db) = Ok frame
    /\ entries w' !! Os.path_join od (on +++ ".xlsx")
       = Some (File (Sheet (Pd.without "index" (df_columns frame))))
    /\ forall c, In c (Pd.without "index" (df_columns frame)) -> fst c <> LStr "index".
Proof.
  rewrite execute_query_directive.
  destruct (execute_query [q; od; on; dbn] db_folder w) as [[[]|e] w1] eqn:H;
    [|discriminate].
  intros Hrest.
  destruct (export_Ok_db_file _ _ _ _ _ _ _ H) as [db1 Hdb].
  apply export_Ok in H as (query & db & frame & _ & _ & Hframe & Hw1).
  exists query, db, frame. split; [exact Hframe|]. split; [|apply without_sound].
  assert (Hout : entries w1 !! Os.path_join od (on +++ ".xlsx")
                 = Some (File (Sheet (Pd.without "index" (df_columns frame))))).
  { rewrite Hw1. apply lookup_insert_eq. }
  destruct rest as [|a4 [|a5 rest]]; [now injection Hrest as <- | | now injection Hrest as <-].
  destruct (a4 =? "clear").
  - rewrite (delete_existing _ _ _ _ Hdb) in Hrest.
    injection Hrest as <-. simpl.
    rewrite lookup_delete_ne by (apply not_eq_sym, output_path_not_db_path).
    exact Hout.
  - injection Hrest as <-. exact Hout.
Qed.

(** The export of the table [orders], stored with its row numbers in a
    column [index]. *)
Lemma export_has_no_index_column_witness :
  exists query db frame,
    fst (@sql_engine Demo.libs query db) = Ok frame
    /\ entries (snd (@execute_query Demo.libs
                       ["SELECT * FROM orders"; "/tmp"; "out"; "sales"]
                       Demo.folder Demo.world)) !! "/tmp/out.xlsx"
       = Some (File (Sheet (Pd.without "index" (df_columns frame))))
    /\ forall c, In c (Pd.without "index" (df_columns frame)) -> fst c <> LStr "index".
Proof.
  apply (@export_has_no_index_column Demo.libs
           "SELECT * FROM orders" "/tmp" "out" "sales" [] Demo.folder Demo.world).
  vm_compute. reflexivity.
Defined.

(** ** The storage directory as the parent of a database file *)

Lemma any_append (p : ascii -> bool) (a b : string) :
  Str.any p (a +++ b) = Str.any p a || Str.any p b.
Proof.
  induction a as [|c r IH]; [reflexivity|].
  change (p c || Str.any p (r +++ b) = p c || Str.any p r || Str.any p b).
  rewrite IH. apply orb_assoc.
Qed.

Lemma head_no_sep (n : string) : Str.any Os.is_sep n = false -> Os.head n = "".
Proof.
  induction n as [|c r IH]; [reflexivity|]. simpl.
  rewrite orb_false_iff. intros [-> Hr]. now rewrite (IH Hr).
Qed.

Lemma head_append (a n : string) :
  Str.any Os.is_sep n = false -> Os.head (a +++ "/" +++ n) = a +++ "/".
Proof.
  intros Hn. induction a as [|c r IH].
  - change (Os.head (String "/" n) = "/"). simpl. now rewrite (head_no_sep _ Hn).
  - change (Os.head (String c (r +++ "/" +++ n)) = String c (r +++ "/")).
    simpl. rewrite IH. destruct r; reflexivity.
Qed.

Lemma rstrip_cons (c : ascii) (r : string) :
  Os.rstrip_sep (String c r)
  = match Os.rstrip_sep r with
    | EmptyString => if Os.is_sep c then EmptyString else String c EmptyString
    | r' => String c r'
    end.
Proof. reflexivity. Qed.

Lemma rstrip_append (a : string) :
  Str.truthy a = true -> Str.ends_with_sep a = false ->
  Os.rstrip_sep (a +++ "/") = a.
Proof.
  induction a as [|c r IH]; [discriminate|]. intros _ Hend.
  change (Os.rstrip_sep (String c (r +++ "/")) = String c r).
  destruct r as [|c' r'].
  - unfold Str.ends_with_sep in Hend. simpl in Hend.
    change (Os.rstrip_sep (String c "/") = String c ""). simpl.
    unfold Os.is_sep. destruct (Ascii.eqb_spec c "/"); [subst c; discriminate | reflexivity].
  - rewrite rstrip_cons, IH; [reflexivity | reflexivity | exact Hend].
Qed.

(** For a storage directory written without a final separator and a plain
    database name, the database path is [folder/name.db] and its directory
    is the storage directory. *)
Lemma dirname_db_path (db_folder db_name : string) :
  Str.truthy db_folder = true -> Str.ends_with_sep db_folder = false ->
  Str.any Os.is_sep db_name = false ->
  Os.dirname (Os.path_join db_folder (db_name +++ ".db")) = db_folder.
Proof.
  intros Ht He Hn.
  assert (Hfile : Str.any Os.is_sep (db_name +++ ".db") = false)
    by (rewrite any_append, Hn; reflexivity).
  assert (Hstart : Str.starts_with_sep (db_name +++ ".db") = false).
  { destruct db_name as [|c r]; [reflexivity|].
    simpl in Hn. apply orb_false_iff in Hn as [Hc _].
    change (Str.starts_with_sep (String c (r +++ ".db")) = false).
    unfold Os.is_sep in Hc. destruct (Ascii.eqb_spec c "/"); [discriminate|].
    destruct c as [[] [] [] [] [] [] [] []]; try reflexivity. congruence. }
  unfold Os.path_join. rewrite Hstart, Ht, He. simpl negb. simpl orb.
  unfold Os.dirname. rewrite (head_append _ _ Hfile), (rstrip_append _ Ht He).
  destruct db_folder; [discriminate | reflexivity].
Qed.

(** The storage directory [main] computes is written that way. *)
Lemma main_db_folder_plain (current_path : string) :
  Str.truthy (Os.path_join current_path "Databases") = true
  /\ Str.ends_with_sep (Os.path_join current_path "Databases") = false.
Proof.
  split.
  - unfold Os.path_join. cbn [Str.starts_with_sep].
    destruct (negb (Str.truthy current_path) || Str.ends_with_sep current_path);
      destruct current_path; reflexivity.
  - unfold Str.ends_with_sep. now rewrite last_path_join.
Qed.

Lemma parent_exists_db_path (fs : gmap string node) (db_folder db_name : string) :
  Str.truthy db_folder = true -> Str.ends_with_sep db_folder = false ->
  Str.any Os.is_sep db_name = false ->
  fs !! db_folder = Some Dir ->
  Os.parent_exists fs (Os.path_join db_folder (db_name +++ ".db")) = true.
Proof.
  intros Ht He Hn Hdir. unfold Os.parent_exists.
  rewrite (dirname_db_path _ _ Ht He Hn).
  destruct db_folder; [discriminate|]. unfold Os.isdir. now rewrite Hdir.
Qed.

(** ** Deleting a database of the storage directory *)

(** C9: for a plain database name and a storage directory that is a
    directory (or is missing in a directory that exists), the path
    [delete_db_path] works on is the file [<name>.db] of the storage
    directory; when that file exists it is removed, one line is printed
    and nothing else changes; when it does not exist the NotFound
    exception is raised, its message contains the given database name, and
    nothing changes. *)
Theorem delete_db_path_spec (db_name db_folder : string) (w : World) :
  Str.truthy db_folder = true ->
  Str.ends_with_sep db_folder = false ->
  Str.any Os.is_sep db_name = false ->
  (entries w !! db_folder = Some Dir
   \/ (entries w !! db_folder = None /\ Os.parent_exists (entries w) db_folder = true)) ->
  let p := Os.path_join db_folder (db_name +++ ".db") in
  Os.dirname p = db_folder
  /\ (forall c, entries w !! p = Some (File c) ->
     delete_db_path db_name db_folder w
     = (Ok tt,
        mkWorld (delete p (entries w))
          (stdout w ++ [Line (Str.join " " ["Successfully deleted SQLite Database ";
                                           quoted (db_name +++ ".db")])]))
     /\ delete p (entries w) !! p = None)
  /\ (entries w !! p = None ->
     delete_db_path db_name db_folder w
     = (Raise (Exception (msg_no_db_delete db_name)), w)
     /\ exists pre post, msg_no_db_delete db_name = pre +++ db_name +++ post).
Proof.
  intros Hnamed Hplain Hname _ p.
  split; [now apply dirname_db_path|]. split.
  - intros c Hc. split; [exact (delete_existing _ _ _ _ Hc) | apply lookup_delete_eq].
  - intros Hnone. split; [exact (delete_missing _ _ _ Hnone)|].
    unfold msg_no_db_delete. eauto.
Qed.

(** Deleting the database [sales] of the example world, and a name that
    was never built. *)
Lemma delete_db_path_spec_witness :
  Os.dirname "/app/Databases/sales.db" = "/app/Databases"
  /\ (delete_db_path "sales" Demo.folder Demo.world
      = (Ok tt,
         mkWorld (delete "/app/Databases/sales.db" (entries Demo.world))
           [Line "Successfully deleted SQLite Database  'sales.db'"])
      /\ delete "/app/Databases/sales.db" (entries Demo.world)
           !! "/app/Databases/sales.db" = None)
  /\ delete_db_path "ghost" Demo.folder Demo.world
     = (Raise (Exception "There is no database with the name ghost. Did you specify the correct name of the Database you want to delete?"),
        Demo.world).
Proof.
  pose proof (delete_db_path_spec "sales" Demo.folder Demo.world
                eq_refl eq_refl eq_refl (or_introl eq_refl)) as (Hdir & Hdel & _).
  pose proof (delete_db_path_spec "ghost" Demo.folder Demo.world
                eq_refl eq_refl eq_refl (or_introl eq_refl)) as (_ & _ & Hmiss).
  split; [exact Hdir|]. split.
  - exact (Hdel (Sqlite [("orders", Demo.orders)]) eq_refl).
  - exact (proj1 (Hmiss eq_refl)).
Defined.

(** ** Running a query on a database that was never built *)

Section MissingDatabase.
Context {L : Libs}.
Variables (q od on dbn db_folder query : string) (w : World).

Let dbp : string := Os.path_join db_folder (dbn +++ ".db").

Hypothesis folder_named : Str.truthy db_folder = true.
Hypothesis folder_plain : Str.ends_with_sep db_folder = false.
Hypothesis name_plain : Str.any Os.is_sep dbn = false.
Hypothesis folder_exists : entries w !! db_folder = Some Dir.
Hypothesis file_absent : entries w !! dbp = None.
Hypothesis query_resolved : get_query q w = (Ok query, w).

(** Opening the connection creates the empty database file. *)
Lemma connect_creates :
  Sqlite3.connect dbp w = (Ok dbp, set_entries (insert dbp (File (Sqlite []))) w).
Proof using folder_named folder_plain name_plain folder_exists file_absent.
  unfold Sqlite3.connect. rewrite file_absent.
  unfold dbp. now rewrite parent_exists_db_path.
Qed.

(** However the export ends, the file is there afterwards, holding the
    database as the query left the empty one. *)
Lemma export_on_missing_db (r1 : Res unit) (w1 : World) :
  execute_query [q; od; on; dbn] db_folder w = (r1, w1) ->
  entries w1 !! dbp = Some (File (Sqlite (snd (sql_engine query [])))).
Proof using All.
  unfold execute_query, bind, lift. cbn [index nth_error]. fold dbp.
  rewrite query_resolved. unfold try_except at 1. rewrite connect_creates.
  unfold try_except, Pd.read_sql_query. simpl entries. rewrite lookup_insert_eq.
  destruct (sql_engine query []) as [[frame|e] db'].
  - assert (Hne : Os.path_join od (on +++ ".xlsx") <> dbp)
      by apply output_path_not_db_path.
    simpl snd. unfold Pd.to_excel, Pd.drop, Sqlite3.close, print, ret, raise.
    destruct (Pd.has_column "index" frame); simpl;
      rewrite !lookup_insert_ne by (apply not_eq_sym, Hne);
      (destruct (entries w !! Os.path_join od (on +++ ".xlsx")) as [[|c]|];
       [cbv beta iota; intros [= _ <-]; apply lookup_insert_eq | |]);
      (destruct (Os.parent_exists _ _); cbv beta iota; intros [= _ <-]; simpl;
       rewrite ?lookup_insert_ne by exact Hne; apply lookup_insert_eq).
  - destruct e; unfold raise; intros [= _ <-]; apply lookup_insert_eq.
Qed.

(** C4: with the storage directory present and the database file absent,
    a run of [execute_query] that gets to open the connection (four
    arguments at least, query text resolved) creates the empty database
    file by opening it.  However the run ends, the file is there
    afterwards, holding what the query made of the empty database, unless
    the run returned and its only further argument was [clear]; when the
    run raises, the storage directory has the file it did not have. *)
Theorem execute_query_creates_db_file (rest : list string) (r : Res unit) (w' : World) :
  execute_query (q :: od :: on :: dbn :: rest) db_folder w = (r, w') ->
  let created := File (Sqlite (snd (sql_engine query []))) in
  Sqlite3.connect dbp w = (Ok dbp, set_entries (insert dbp (File (Sqlite []))) w)
  /\ (entries w' !! dbp = Some created
      \/ (r = Ok tt /\ rest = ["clear"] /\ entries w' !! dbp = None))
  /\ (forall e, r = Raise e ->
        entries w' !! dbp = Some created /\ entries w' <> entries w).
Proof using All.
  intros H created. split; [apply connect_creates|].
  rewrite execute_query_directive in H.
  destruct (execute_query [q; od; on; dbn] db_folder w) as [r1 w1] eqn:E.
  pose proof (export_on_missing_db _ _ E) as Hfile. fold created in Hfile.
  assert (Key : entries w' !! dbp = Some created
                \/ (r = Ok tt /\ rest = ["clear"] /\ entries w' !! dbp = None)).
  { destruct r1 as [[]|e]; [|injection H as <- <-; left; exact Hfile].
    destruct rest as [|a4 [|a5 rest]];
      [injection H as <- <-; left; exact Hfile | | injection H as <- <-; left; exact Hfile].
    destruct (String.eqb_spec a4 "clear") as [->|Hne].
    - rewrite (delete_existing _ _ _ _ Hfile) in H.
      injection H as <- <-. right. repeat split. apply lookup_delete_eq.
    - injection H as <- <-. left. exact Hfile. }
  split; [exact Key|]. intros e ->.
  destruct Key as [K | (K & _)]; [|discriminate].
  split; [exact K|]. intros Heq. rewrite Heq, file_absent in K. discriminate.
Qed.

End MissingDatabase.

(** In the example world, for a query on a table the new database cannot
    have: the run raises the query error and [missing.db] has appeared. *)
Lemma execute_query_creates_db_file_witness :
  let run := @execute_query Demo.libs ["SELECT * FROM orders"; "/tmp"; "out"; "missing"]
               Demo.folder Demo.world in
  entries Demo.world !! "/app/Databases/missing.db" = None
  /\ fst run = Raise (Exception (msg_query_error "missing"))
  /\ entries (snd run) !! "/app/Databases/missing.db" = Some (File (Sqlite []))
  /\ entries (snd run) <> entries Demo.world.
Proof.
  intros run.
  pose proof (@execute_query_creates_db_file Demo.libs
                "SELECT * FROM orders" "/tmp" "out" "missing" Demo.folder
                "SELECT * FROM orders" Demo.world
                eq_refl eq_refl eq_refl eq_refl eq_refl eq_refl
                [] (fst run) (snd run) (surjective_pairing run)) as H.
  destruct H as (_ & _ & H).
  split; [reflexivity|]. split; [reflexivity|].
  exact (H (Exception (msg_query_error "missing")) eq_refl).
Defined.

(** Without the storage directory the connection cannot be opened and the
    error for a missing database is raised, before any query is run. *)
Lemma execute_query_without_folder `{L : Libs} (q od on dbn : string)
    (rest : list string) (db_folder query : string) (w : World) :
  let dbp := Os.path_join db_folder (dbn +++ ".db") in
  entries w !! dbp = None ->
  Os.parent_exists (entries w) dbp = false ->
  get_query q w = (Ok query, w) ->
  execute_query (q :: od :: on :: dbn :: rest) db_folder w
  = (Raise (Exception (msg_no_db_query dbn)), w).
Proof.
  intros dbp Hnone Hpar Hq. rewrite execute_query_directive.
  unfold execute_query, bind, lift. cbn [index nth_error]. fold dbp.
  rewrite Hq. unfold try_except at 1. unfold Sqlite3.connect.
  rewrite Hnone, Hpar. reflexivity.
Qed.

(** C2 (the code at the failing input): in a world whose storage directory
    exists and has no [missing.db], the query [SELECT 1] against [missing]
    raises nothing: the database file is created empty, the query is run
    on it, and the spreadsheet is written. *)
Theorem execute_query_on_missing_db_runs_query :
  entries Demo.world !! "/app/Databases" = Some Dir
  /\ entries Demo.world !! "/app/Databases/missing.db" = None
  /\ @execute_query Demo.libs ["SELECT 1"; "/tmp"; "out"; "missing"]
       Demo.folder Demo.world
     = (Ok tt,
        mkWorld
          (<["/tmp/out.xlsx" := File (Sheet [(LStr "1", [VInt 1])])]>
             (<["/app/Databases/missing.db" := File (Sqlite [])]>
                (entries Demo.world)))
          [Line "Query ran succesfully. Output found at /tmp/out.xlsx"]).
Proof. vm_compute. repeat split. Qed.

(** ** The dispatcher *)

Lemma bind_cong {A B : Type} (m m' : M A) (k k' : A -> M B) (w : World) :
  m w = m' w -> (forall a w1, k a w1 = k' a w1) -> bind m k w = bind m' k' w.
Proof.
  intros Hm Hk. unfold bind. rewrite Hm.
  destruct (m' w) as [[a|e] w1]; [apply Hk | reflexivity].
Qed.

Lemma bind_ret_tt (m : M unit) (w : World) : bind m (fun _ => ret tt) w = m w.
Proof. unfold bind, ret. destruct (m w) as [[[]|e] w1]; reflexivity. Qed.

(** Running the selected elements of a list is running the list with the
    others skipped. *)
Lemma for_each_filter {A : Type} (p : A -> bool) (body : A -> M unit)
    (l : list A) (w : World) :
  for_each (List.filter p l) body w
  = for_each l (fun x => if p x then body x else ret tt) w.
Proof.
  revert w. induction l as [|x r IH]; intros w; [reflexivity|].
  cbn [List.filter for_each]. destruct (p x).
  - cbn [for_each]. apply bind_cong; [reflexivity | intros _ w1; apply IH].
  - rewrite IH. reflexivity.
Qed.

Lemma main_as_guarded_steps `{L : Libs} (args : Namespace) (current_path : string)
    (w : World) :
  main args current_path w
  = for_each fixed_order
      (fun op => if requested args op then perform args current_path op else ret tt) w.
Proof.
  unfold main, fixed_order. cbn [for_each].
  apply bind_cong; [cbn; destruct (build_db_name args); reflexivity | intros _ w1].
  apply bind_cong; [cbn; destruct (delete_db_name args); reflexivity | intros _ w2].
  apply bind_cong; [cbn; destruct (file_to_import_args args); reflexivity | intros _ w3].
  apply bind_cong; [cbn; destruct (query_to_execute args); reflexivity | intros _ w4].
  apply bind_cong; [reflexivity | intros _ w5].
  apply bind_cong; [reflexivity | intros _ w6].
  rewrite bind_ret_tt. cbn.
  destruct (list_table_db_name args) as [n|]; [destruct (Str.truthy n)|]; reflexivity.
Qed.

(** Two options for different operations store under different names. *)
Lemma store_commutes (ns : Namespace) (f g : flag) :
  flag_operation f <> flag_operation g ->
  store (store ns f) g = store (store ns g) f.
Proof. destruct f, g; simpl; intros H; try reflexivity; contradiction. Qed.

Lemma fold_store_permutation (argv argv' : list flag) :
  Permutation argv argv' ->
  List.NoDup (List.map flag_operation argv) ->
  forall ns, fold_left store argv ns = fold_left store argv' ns.
Proof.
  induction 1 as [|x l l' Hp IH|x y l|l l' l'' Hp IH Hp' IH']; intros Hnd ns.
  - reflexivity.
  - cbn [fold_left]. apply IH. now inversion Hnd.
  - cbn [fold_left]. f_equal. apply store_commutes.
    cbn [List.map] in Hnd. inversion Hnd as [|? ? Hnotin _]; subst.
    intros E. apply Hnotin. left. symmetry. exact E.
  - rewrite IH by exact Hnd. apply IH'.
    eapply Permutation_NoDup; [apply Permutation_map, Hp | exact Hnd].
Qed.

(** C5: [main] runs the requested operations, and only those, in the order
    build database, delete database, import file, execute query, clear all
    data, list databases, list tables, stopping at the first that raises;
    and the namespace, hence the run, is the same for every order in which
    the options (one of each operation at most) are typed. *)
Theorem dispatcher_fixed_order `{L : Libs} :
  (forall args current_path w,
     main args current_path w = dispatch_in_fixed_order args current_path w)
  /\ (forall argv argv' current_path w,
        List.NoDup (List.map flag_operation argv) ->
        Permutation argv argv' ->
        parse_args argv' = parse_args argv
        /\ main (parse_args argv') current_path w
           = dispatch_in_fixed_order (parse_args argv) current_path w).
Proof.
  assert (Hmain : forall args current_path w,
             main args current_path w = dispatch_in_fixed_order args current_path w).
  { intros args current_path w. unfold dispatch_in_fixed_order.
    rewrite for_each_filter. apply main_as_guarded_steps. }
  split; [exact Hmain|].
  intros argv argv' current_path w Hnd Hp.
  assert (E : parse_args argv' = parse_args argv).
  { unfold parse_args. symmetry. now apply fold_store_permutation. }
  split; [exact E|]. rewrite E. apply Hmain.
Qed.

(** A command line that asks for the list of databases first and the build
    of [db1] last: the build comes first. *)
Lemma dispatcher_fixed_order_witness :
  parse_args [FlagListDb; FlagDelete "sales"; FlagBuild "db1"]
  = parse_args [FlagBuild "db1"; FlagDelete "sales"; FlagListDb]
  /\ @main Demo.libs (parse_args [FlagListDb; FlagDelete "sales"; FlagBuild "db1"])
       "/app" Demo.world
     = @dispatch_in_fixed_order Demo.libs
         (parse_args [FlagBuild "db1"; FlagDelete "sales"; FlagListDb]) "/app" Demo.world.
Proof.
  apply (proj2 (@dispatcher_fixed_order Demo.libs)).
  - cbn. repeat constructor; cbn; intuition discriminate.
  - eapply perm_trans; [apply perm_swap|].
    eapply perm_trans; [apply perm_skip, perm_swap|]. apply perm_swap.
Defined.

(** The run of that command line: [db1.db] is created, then [sales.db]
    deleted, then the directory listed. *)
Example dispatcher_run :
  @main Demo.libs (parse_args [FlagListDb; FlagDelete "sales"; FlagBuild "db1"])
    "/app" Demo.world
  = (Ok tt,
     mkWorld
       (delete "/app/Databases/sales.db"
          (<["/app/Databases/db1.db" := File (Sqlite [])]> (entries Demo.world)))
       [Line "Successfully created SQLite Database  'db1.db'";
        Line "Successfully deleted SQLite Database  'sales.db'";
        Line "db1.db"]).
Proof. vm_compute. reflexivity. Qed.

(* ===================================================================== *)
(** * Further properties of the program *)
(* ===================================================================== *)

(** ** The validator, characterised *)

Lemma replaced_isalnum_char (c : ascii) :
  Str.isalnum_char (if Ascii.eqb c "_" then "A"%char else c)
  = Str.isalnum_char c || Str.underscore c.
Proof. each_char c. Qed.

Lemma all_replaced (s : string) :
  Str.all Str.isalnum_char (Str.replace "_" "A" s)
  = Str.all (fun c => Str.isalnum_char c || Str.underscore c) s.
Proof.
  induction s as [|c r IH]; [reflexivity|]. simpl.
  rewrite replaced_isalnum_char. f_equal. exact IH.
Qed.

Lemma truthy_replaced (s : string) :
  Str.truthy (Str.replace "_" "A" s) = Str.truthy s.
Proof. destruct s; reflexivity. Qed.

(** X1: the validator accepts an identifier exactly when it is not empty,
    is not made of digits only, and every character is an underscore or
    alphanumeric.  A leading digit alone is no reason to refuse, whatever
    the message of the first test says. *)
Theorem validator_accepts_iff (entity type_ : string) :
  check_sqlite_entity_syntax entity type_ = Ok tt
  <-> (Str.truthy entity = true
       /\ Str.all Str.isdigit_char entity = false
       /\ Str.all (fun c => Str.isalnum_char c || Str.underscore c) entity = true).
Proof.
  unfold check_sqlite_entity_syntax, Str.isdigit, Str.isalnum.
  rewrite truthy_replaced, all_replaced.
  destruct (Str.truthy entity); simpl.
  - destruct (Str.all Str.isdigit_char entity); simpl.
    + split; [discriminate | intros (_ & H & _); discriminate].
    + destruct (Str.all _ entity); simpl.
      * split; auto.
      * split; [discriminate | intros (_ & _ & H); discriminate].
  - split; [discriminate | intros (H & _); discriminate].
Qed.

(** The name ["1st_half"] leads with a digit and is accepted. *)
Lemma validator_accepts_iff_witness :
  check_sqlite_entity_syntax "1st_half" "Table" = Ok tt.
Proof.
  apply (proj2 (validator_accepts_iff "1st_half" "Table")).
  repeat split.
Defined.

(** ** Building a database *)

Lemma append_nil_r (a : string) : a +++ "" = a.
Proof.
  induction a as [|c r IH]; [reflexivity|].
  change (String c (r +++ "") = String c r). now rewrite IH.
Qed.

Lemma plain_not_absolute (n : string) :
  Str.any Os.is_sep n = false -> Str.starts_with_sep n = false.
Proof.
  destruct n as [|c r]; [reflexivity|]. simpl.
  rewrite orb_false_iff. intros [Hc _]. unfold Os.is_sep in Hc.
  destruct (Ascii.eqb_spec c "/"); [discriminate|].
  destruct c as [[] [] [] [] [] [] [] []]; try reflexivity. congruence.
Qed.

(** [os.path.join(d, n)] is [os.path.join(d, '')] followed by [n], for a
    relative [n]. *)
Lemma path_join_relative (d n : string) :
  Str.starts_with_sep n = false ->
  Os.path_join d n = Os.path_join d "" +++ n.
Proof.
  intros Hn. unfold Os.path_join. rewrite Hn. cbn [Str.starts_with_sep].
  destruct (negb (Str.truthy d) || Str.ends_with_sep d).
  - now rewrite append_nil_r.
  - now rewrite <- !append_assoc, append_nil_r.
Qed.

Lemma db_file_plain (db_name : string) :
  Str.any Os.is_sep db_name = false ->
  Str.any Os.is_sep (db_name +++ ".db") = false.
Proof. intros H. rewrite any_append, H. reflexivity. Qed.

(** The database path is longer than the storage directory. *)
Lemma db_path_not_folder (db_folder db_name : string) :
  Str.any Os.is_sep db_name = false ->
  Os.path_join db_folder (db_name +++ ".db") <> db_folder.
Proof.
  intros Hn E. apply (f_equal String.length) in E.
  rewrite path_join_relative in E by apply plain_not_absolute, db_file_plain, Hn.
  unfold Os.path_join in E. cbn [Str.starts_with_sep] in E.
  destruct (negb (Str.truthy db_folder) || Str.ends_with_sep db_folder);
    rewrite ?length_append in E; cbn [String.length] in E; lia.
Qed.

Lemma plain_folder_not_root (d : string) :
  Str.ends_with_sep d = false -> Os.is_root d = false.
Proof.
  unfold Os.is_root. destruct d as [|c r]; [reflexivity|].
  intros Hd. apply andb_false_iff. right.
  revert c Hd. unfold Str.ends_with_sep.
  induction r as [|c' r' IH]; intros c.
  - simpl. unfold Os.is_sep.
    destruct (Ascii.eqb_spec c "/"); [subst c; discriminate | reflexivity].
  - intros H. change (Os.is_sep c && Str.all Os.is_sep (String c' r') = false).
    rewrite (IH c' H). apply andb_false_r.
Qed.

Section Build.
Variables (db_name current_path db_folder : string) (w : World).

Let dbp : string := Os.path_join db_folder (db_name +++ ".db").

Hypothesis folder_named : Str.truthy db_folder = true.
Hypothesis folder_plain : Str.ends_with_sep db_folder = false.
Hypothesis name_plain : Str.any Os.is_sep db_name = false.
(** The storage directory is there, or it is missing in a directory that
    is there, so that creating it creates no other directory. *)
Hypothesis folder_free :
  entries w !! db_folder = Some Dir
  \/ (entries w !! db_folder = None /\ Os.parent_exists (entries w) db_folder = true).
Hypothesis file_absent : entries w !! dbp = None.

Lemma build_db_fresh :
  build_db db_name current_path db_folder w
  = (Ok tt,
     mkWorld (<[dbp := File (Sqlite [])]> (<[db_folder := Dir]> (entries w)))
       (stdout w ++ [Line (Str.join " " ["Successfully created SQLite Database ";
                                        quoted (db_name +++ ".db")])])).
Proof using All.
  assert (Hne : db_folder <> dbp) by (apply not_eq_sym, db_path_not_folder, name_plain).
  unfold build_db, bind, Os.path_exists, Os.makedirs, Sqlite3.connect. fold dbp.
  destruct folder_free as [Hf | [Hf _]]; rewrite Hf.
  - cbn [Bool.eqb ret]. rewrite file_absent.
    unfold dbp. rewrite parent_exists_db_path by auto.
    fold dbp. rewrite (insert_id _ _ _ Hf). reflexivity.
  - rewrite (plain_folder_not_root _ folder_plain). cbn [Bool.eqb].
    rewrite Hf. cbn [set_entries entries].
    rewrite lookup_insert_ne, file_absent by exact Hne.
    unfold dbp. rewrite parent_exists_db_path by (auto; apply lookup_insert_eq).
    reflexivity.
Qed.

(** X2: [build_db] on a plain name that has no file yet creates the
    storage directory when it is missing (in a directory that exists) and
    an empty database file in it, prints one line and returns; the name is
    not put to the identifier rule, and nothing else in the file system
    changes. *)
Theorem build_db_creates :
  exists w',
    build_db db_name current_path db_folder w = (Ok tt, w')
    /\ entries w' !! dbp = Some (File (Sqlite []))
    /\ entries w' !! db_folder = Some Dir
    /\ (forall k, k <> dbp -> k <> db_folder -> entries w' !! k = entries w !! k)
    /\ stdout w'
       = (stdout w ++ [Line (Str.join " " ["Successfully created SQLite Database ";
                                          quoted (db_name +++ ".db")])])%list.
Proof using All.
  assert (Hne : db_folder <> dbp) by (apply not_eq_sym, db_path_not_folder, name_plain).
  eexists. split; [apply build_db_fresh|]. cbn [entries stdout].
  split; [apply lookup_insert_eq|].
  split; [rewrite lookup_insert_ne by auto; apply lookup_insert_eq|].
  split; [|reflexivity].
  intros k Hk Hk'. now rewrite !lookup_insert_ne by auto.
Qed.

(** X3: building a database and deleting it at once leaves no database
    file: what remains of the two steps is the storage directory and the
    two lines printed. *)
Theorem build_then_delete :
  (build_db db_name current_path db_folder ;; delete_db_path db_name db_folder) w
  = (Ok tt,
     mkWorld (<[db_folder := Dir]> (entries w))
       (stdout w
        ++ [Line (Str.join " " ["Successfully created SQLite Database ";
                                quoted (db_name +++ ".db")]);
            Line (Str.join " " ["Successfully deleted SQLite Database ";
                                quoted (db_name +++ ".db")])])).
Proof using All.
  assert (Hne : db_folder <> dbp) by (apply not_eq_sym, db_path_not_folder, name_plain).
  unfold bind at 1. rewrite build_db_fresh.
  erewrite delete_existing by (cbn [entries]; fold dbp; apply lookup_insert_eq).
  fold dbp. cbn [entries stdout]. f_equal. f_equal.
  - apply delete_insert_id. now rewrite lookup_insert_ne.
  - now rewrite <- app_assoc.
Qed.

End Build.

(** Building [2020] where the program directory holds no storage
    directory yet. *)
Lemma build_db_creates_witness :
  let w := mkWorld (<["/app" := Dir]> ∅) [] in
  exists w',
    build_db "2020" "/app" "/app/Databases" w = (Ok tt, w')
    /\ entries w' !! "/app/Databases/2020.db" = Some (File (Sqlite []))
    /\ entries w' !! "/app/Databases" = Some Dir
    /\ (forall k, k <> "/app/Databases/2020.db" -> k <> "/app/Databases" ->
                  entries w' !! k = entries w !! k)
    /\ stdout w' = [Line "Successfully created SQLite Database  '2020.db'"].
Proof.
  intros w.
  exact (build_db_creates "2020" "/app" "/app/Databases" w
           eq_refl eq_refl eq_refl (or_intror (conj eq_refl eq_refl)) eq_refl).
Defined.

(** Building and deleting [db1] in the example world. *)
Lemma build_then_delete_witness :
  (build_db "db1" "/app" Demo.folder ;; delete_db_path "db1" Demo.folder) Demo.world
  = (Ok tt,
     mkWorld (<[Demo.folder := Dir]> (entries Demo.world))
       [Line "Successfully created SQLite Database  'db1.db'";
        Line "Successfully deleted SQLite Database  'db1.db'"]).
Proof.
  exact (build_then_delete "db1" "/app" Demo.folder Demo.world
           eq_refl eq_refl eq_refl (or_introl eq_refl) eq_refl).
Defined.

(** X4: [build_db] on a name whose file exists changes no file: the
    database keeps its tables, and the line printed says it was created. *)
Theorem build_db_keeps_existing (db_name current_path db_folder : string)
    (w : World) (c : content) :
  entries w !! db_folder = Some Dir ->
  entries w !! Os.path_join db_folder (db_name +++ ".db") = Some (File c) ->
  build_db db_name current_path db_folder w
  = (Ok tt,
     mkWorld (entries w)
       (stdout w ++ [Line (Str.join " " ["Successfully created SQLite Database ";
                                        quoted (db_name +++ ".db")])])).
Proof.
  intros Hf Hc. unfold build_db, bind, Os.path_exists, Sqlite3.connect.
  rewrite Hf. cbn [Bool.eqb ret]. rewrite Hc. reflexivity.
Qed.

(** Building [sales] again in the example world. *)
Lemma build_db_keeps_existing_witness :
  build_db "sales" "/app" Demo.folder Demo.world
  = (Ok tt,
     mkWorld (entries Demo.world)
       [Line "Successfully created SQLite Database  'sales.db'"]).
Proof.
  exact (build_db_keeps_existing "sales" "/app" Demo.folder Demo.world _ eq_refl eq_refl).
Defined.

(** ** Arguments that are missing, queries that cannot be read *)

(** X5: when the query is given as a [.txt] path that cannot be read,
    [execute_query] raises before any connection is opened, whatever the
    other arguments and the database are, and the world is as it was: for
    a missing path [FileNotFoundError], or [NotADirectoryError] when one
    of its components is a regular file; for a file with no line, the
    exception for an empty query file. *)
Theorem execute_query_unreadable_query `{L : Libs} (q : string) (rest : list string)
    (db_folder : string) (w : World) :
  Str.suffix 4 q = ".txt" ->
  (entries w !! q = None -> Os.below_file (entries w) q = false ->
     execute_query (q :: rest) db_folder w = (Raise FileNotFoundError, w))
  /\ (entries w !! q = None -> Os.below_file (entries w) q = true ->
     execute_query (q :: rest) db_folder w = (Raise NotADirectoryError, w))
  /\ (entries w !! q = Some (File (Text [])) ->
     execute_query (q :: rest) db_folder w = (Raise (Exception msg_empty_query), w)).
Proof.
  intros Hq.
  assert (Hrun : forall r, get_query q w = (Raise r, w) ->
                           execute_query (q :: rest) db_folder w = (Raise r, w)).
  { intros r Hr. unfold execute_query, bind, lift. cbn [index nth_error].
    now rewrite Hr. }
  assert (Hget : get_query q w
                 = (let* all_lines := Os.readlines q in
                    if Nat.eqb (length all_lines) 0 then raise (Exception msg_empty_query)
                    else ret (Str.join "" all_lines)) w).
  { unfold get_query. now rewrite Hq. }
  split; [|split]; intros Hf; [intros Hb | intros Hb |]; apply Hrun; rewrite Hget;
    unfold bind, Os.readlines; rewrite Hf, ?Hb; reflexivity.
Qed.

(** In the example world, against a database that does not exist: a query
    file that is not there, a path below the regular file [empty.txt], and
    the empty query file.  Nothing is created. *)
Lemma execute_query_unreadable_query_witness :
  @execute_query Demo.libs ["/tmp/q.txt"; "/tmp"; "out"; "missing"]
    Demo.folder Demo.world
  = (Raise FileNotFoundError, Demo.world)
  /\ @execute_query Demo.libs ["/tmp/empty.txt/q.txt"; "/tmp"; "out"; "missing"]
       Demo.folder Demo.world
     = (Raise NotADirectoryError, Demo.world)
  /\ @execute_query Demo.libs ["/tmp/empty.txt"; "/tmp"; "out"; "missing"]
       Demo.folder Demo.world
     = (Raise (Exception "The given file holding the query is empty."), Demo.world).
Proof.
  split; [|split].
  - exact (proj1 (@execute_query_unreadable_query Demo.libs "/tmp/q.txt"
                    ["/tmp"; "out"; "missing"] Demo.folder Demo.world eq_refl)
             eq_refl eq_refl).
  - exact (proj1 (proj2 (@execute_query_unreadable_query Demo.libs "/tmp/empty.txt/q.txt"
                           ["/tmp"; "out"; "missing"] Demo.folder Demo.world eq_refl))
             eq_refl eq_refl).
  - exact (proj2 (proj2 (@execute_query_unreadable_query Demo.libs "/tmp/empty.txt"
                           ["/tmp"; "out"; "missing"] Demo.folder Demo.world eq_refl))
             eq_refl).
Defined.




(** ** The listing of the storage directory *)

Lemma strip_prefix_append (p n : string) : Os.strip_prefix p (p +++ n) = Some n.
Proof.
  induction p as [|c r IH]; [now destruct n|].
  change (Os.strip_prefix (String c r) (String c (r +++ n)) = Some n).
  simpl. now rewrite Ascii.eqb_refl.
Qed.

Lemma strip_prefix_Some (p k n : string) :
  Os.strip_prefix p k = Some n -> k = p +++ n.
Proof.
  revert k. induction p as [|c r IH]; intros k.
  - cbn [Os.strip_prefix]. intros [= <-]. reflexivity.
  - destruct k as [|c' k']; [discriminate|]. simpl.
    destruct (Ascii.eqb_spec c c') as [->|]; [|discriminate].
    intros H. change (String c' k' = String c' (r +++ n)). now rewrite (IH _ H).
Qed.

(** A name is listed in a directory exactly when it is a plain name and
    there is an entry at the path joined from the directory and the
    name. *)
Lemma elem_of_children (fs : gmap string node) (d n : string) :
  n ∈ Os.children fs d
  <-> Str.truthy n = true /\ Str.any Os.is_sep n = false
      /\ is_Some (fs !! Os.path_join d n).
Proof.
  unfold Os.children. rewrite list_elem_of_omap. split.
  - intros ([k x] & Hin & Hchild). apply elem_of_map_to_list in Hin.
    unfold Os.child_name in Hchild. cbn [fst] in Hchild.
    destruct (Os.strip_prefix _ k) as [n'|] eqn:Hs; [|discriminate].
    destruct (Str.truthy n' && negb (Str.any Os.is_sep n')) eqn:Hn; [|discriminate].
    injection Hchild as ->. apply andb_true_iff in Hn as [Ht Hp].
    apply negb_true_iff in Hp. apply strip_prefix_Some in Hs.
    rewrite <- path_join_relative in Hs by apply plain_not_absolute, Hp.
    subst k. eauto.
  - intros (Ht & Hp & [x Hx]). exists (Os.path_join d n, x).
    split; [now apply elem_of_map_to_list|].
    unfold Os.child_name. cbn [fst].
    rewrite (path_join_relative d n) by apply plain_not_absolute, Hp.
    now rewrite strip_prefix_append, Ht, Hp.
Qed.

Lemma existsb_eqb_elem (n : string) (names : list string) :
  existsb (fun x => x =? n) names = true <-> n ∈ names.
Proof.
  rewrite existsb_exists, list_elem_of_In. split.
  - intros (x & Hin & Hx). apply String.eqb_eq in Hx. now subst x.
  - intros Hin. exists n. split; [exact Hin | apply String.eqb_refl].
Qed.

Lemma drop_drop (a b : nat) (s : string) :
  Str.drop a (Str.drop b s) = Str.drop (b + a) s.
Proof.
  revert s. induction b as [|b IH]; intros s; [reflexivity|].
  destruct s as [|c r]; [destruct a; reflexivity|]. exact (IH r).
Qed.

(** A path with [path[-4:] == 'xlsx'] is not taken for a CSV file. *)
Lemma suffix_xlsx_not_csv (path : string) :
  Str.suffix 4 path = "xlsx" -> (Str.suffix 3 path =? "csv") = false.
Proof.
  unfold Str.suffix. intros H.
  destruct (le_lt_dec 4 (String.length path)) as [Hlen | Hlen].
  - replace (String.length path - 3) with ((String.length path - 4) + 1) by lia.
    rewrite <- drop_drop, H. reflexivity.
  - replace (String.length path - 4) with 0 in H by lia. simpl in H. subst path.
    simpl in Hlen. lia.
Qed.

Lemma for_each_check_passes (cols : list column) (w : World) :
  List.Forall (fun col => check_label (fst col) "Column" = Ok tt) cols ->
  for_each cols (fun c w0 => (check_label (fst c) "Column", w0)) w = (Ok tt, w).
Proof.
  induction 1 as [|c r Hc _ IH]; [reflexivity|].
  cbn [for_each]. unfold bind. now rewrite Hc.
Qed.

(** ** Importing a spreadsheet that passes validation *)

Section ImportSpreadsheet.
Context {L : Libs}.
Variables (db data_path table : string) (rest : list string).
Variables (db_folder : string) (w : World) (data : DataFrame).

Let args : list string := db :: data_path :: table :: rest.
Let dbp : string := Os.path_join db_folder (db +++ ".db").

Hypothesis table_valid : check_sqlite_entity_syntax table "Table" = Ok tt.
Hypothesis path_xlsx : Str.suffix 4 data_path = "xlsx".
Hypothesis frame_read :
  read_excel (entries w) data_path
    (if Nat.eqb (length args) 4 then nth_error args 3 else None) = Ok data.
Hypothesis columns_valid :
  List.Forall (fun col => check_label (fst col) "Column" = Ok tt) (df_columns data).

(** What is left of the import once the names are validated. *)
Lemma import_after_validation :
  import_file_to_db args db_folder w
  = (let* names := Os.listdir db_folder in
     let* conn :=
       if existsb (fun db_file_name => db_file_name =? db +++ ".db") names
       then Sqlite3.connect dbp
       else raise (Exception (msg_no_db_import db)) in
     Pd.to_sql data table conn ;;
     Sqlite3.close conn ;;
     print ["Successfully imported file "; quoted data_path; "to"; quoted (db +++ ".db")]) w.
Proof using All.
  unfold args in *. unfold import_file_to_db.
  unfold bind at 1 2 3 4 5, lift. cbn [index nth_error].
  rewrite table_valid, (suffix_xlsx_not_csv _ path_xlsx), path_xlsx.
  cbn [String.eqb Ascii.eqb Bool.eqb].
  assert (Hread : (if (length (db :: data_path :: table :: rest) =? 4)%nat
                   then let* a3 := (fun w0 => (index (db :: data_path :: table :: rest) 3, w0)) in
                        Pd.pd_read_excel data_path (Some a3)
                   else Pd.pd_read_excel data_path None) w = (Ok data, w)).
  { destruct (length (db :: data_path :: table :: rest) =? 4)%nat eqn:El.
    - destruct rest as [|a3 more]; [discriminate|].
      unfold bind, Pd.pd_read_excel. cbn [index nth_error] in *. now rewrite frame_read.
    - unfold Pd.pd_read_excel. now rewrite frame_read. }
  rewrite Hread. unfold bind at 1.
  rewrite (for_each_check_passes _ _ columns_valid). reflexivity.
Qed.

(** X7: an import that passes validation into a database that was not
    built changes nothing: with no storage directory at all the listing
    raises [FileNotFoundError]; with the directory and no file of that name
    listed, the exception naming the database is raised.  No file is
    created by the attempt. *)
Theorem import_into_missing_database :
  (entries w !! db_folder = None -> Os.is_root db_folder = false ->
     import_file_to_db args db_folder w = (Raise FileNotFoundError, w))
  /\ (entries w !! db_folder = Some Dir -> entries w !! dbp = None ->
     import_file_to_db args db_folder w
     = (Raise (Exception (msg_no_db_import db)), w)).
Proof using All.
  split.
  - intros Hf Hroot. rewrite import_after_validation.
    unfold bind at 1. unfold Os.listdir. now rewrite Hf, Hroot.
  - intros Hf Hnone. rewrite import_after_validation.
    unfold bind at 1. unfold Os.listdir. rewrite Hf.
    destruct (existsb _ _) eqn:Hex; [|reflexivity].
    apply existsb_eqb_elem, elem_of_children in Hex as (_ & _ & Hsome).
    fold dbp in Hsome. rewrite Hnone in Hsome. now destruct Hsome.
Qed.

(** X8: an import that passes validation into an existing database hands
    the frame to the engine under the table name, and changes the
    database file only: it holds what the engine left.  When the engine
    refuses (the table exists), its exception comes out as it is and no
    line is printed. *)
Theorem import_writes_table (d : Database) :
  Str.any Os.is_sep db = false ->
  entries w !! db_folder = Some Dir ->
  entries w !! dbp = Some (File (Sqlite d)) ->
  import_file_to_db args db_folder w
  = match sql_create data table d with
    | (Ok _, d') =>
        (Ok tt,
         mkWorld (<[dbp := File (Sqlite d')]> (entries w))
           (stdout w ++ [Line (Str.join " " ["Successfully imported file ";
                                            quoted data_path; "to";
                                            quoted (db +++ ".db")])]))
    | (Raise e, d') =>
        (Raise e, mkWorld (<[dbp := File (Sqlite d')]> (entries w)) (stdout w))
    end.
Proof using All.
  intros Hplain Hf Hd. rewrite import_after_validation.
  unfold bind at 1. unfold Os.listdir. rewrite Hf.
  assert (Hex : existsb (fun x => x =? db +++ ".db") (Os.children (entries w) db_folder) = true).
  { apply existsb_eqb_elem, elem_of_children. fold dbp. rewrite Hd.
    split; [destruct db; reflexivity|]. split; [apply db_file_plain, Hplain | eauto]. }
  rewrite Hex. unfold bind, Sqlite3.connect, Pd.to_sql, Sqlite3.close, ret, print.
  unfold Sqlite3.connection. rewrite Hd. cbv beta iota. rewrite Hd.
  destruct (sql_create data table d) as [[[]|e] d']; reflexivity.
Qed.

End ImportSpreadsheet.

(** A one-column sheet imported into [ghost], never built, and into
    [sales]. *)
Lemma import_into_missing_database_witness :
  let w := mkWorld (<["/tmp/ok.xlsx" := File (Sheet [(LStr "item", [VStr "pen"])])]>
                        (entries Demo.world)) [] in
  @import_file_to_db Demo.libs ["ghost"; "/tmp/ok.xlsx"; "items"] "/nowhere" w
  = (Raise FileNotFoundError, w)
  /\ @import_file_to_db Demo.libs ["ghost"; "/tmp/ok.xlsx"; "items"] Demo.folder w
     = (Raise (Exception (msg_no_db_import "ghost")), w).
Proof.
  intros w. split.
  - apply (proj1 (@import_into_missing_database Demo.libs "ghost" "/tmp/ok.xlsx" "items" []
                    "/nowhere" w (Demo.frame_of [(LStr "item", [VStr "pen"])])
                    eq_refl eq_refl eq_refl
                    ltac:(repeat constructor))); reflexivity.
  - apply (proj2 (@import_into_missing_database Demo.libs "ghost" "/tmp/ok.xlsx" "items" []
                    Demo.folder w (Demo.frame_of [(LStr "item", [VStr "pen"])])
                    eq_refl eq_refl eq_refl
                    ltac:(repeat constructor))); reflexivity.
Defined.

Lemma import_writes_table_witness :
  let w := mkWorld (<["/tmp/ok.xlsx" := File (Sheet [(LStr "item", [VStr "pen"])])]>
                        (entries Demo.world)) [] in
  @import_file_to_db Demo.libs ["sales"; "/tmp/ok.xlsx"; "items"] Demo.folder w
  = (Ok tt,
     mkWorld
       (<["/app/Databases/sales.db" :=
            File (Sqlite [("orders", Demo.orders);
                          ("items", [(LStr "index", [VInt 0]); (LStr "item", [VStr "pen"])])])]>
          (entries w))
       [Line "Successfully imported file  '/tmp/ok.xlsx' to 'sales.db'"]).
Proof.
  intros w.
  exact (@import_writes_table Demo.libs "sales" "/tmp/ok.xlsx" "items" []
           Demo.folder w (Demo.frame_of [(LStr "item", [VStr "pen"])])
           eq_refl eq_refl eq_refl ltac:(repeat constructor)
           [("orders", Demo.orders)] eq_refl eq_refl eq_refl).
Defined.

(** ** A run of a query that fails *)

(** The run with four arguments, whatever its outcome, leaves a database
    file where there was one. *)
Lemma export_keeps_db_file `{L : Libs} (q od on dbn db_folder : string) (w w1 : World)
    (r1 : Res unit) (d : Database) :
  entries w !! Os.path_join db_folder (dbn +++ ".db") = Some (File (Sqlite d)) ->
  execute_query [q; od; on; dbn] db_folder w = (r1, w1) ->
  exists d', entries w1 !! Os.path_join db_folder (dbn +++ ".db") = Some (File (Sqlite d')).
Proof.
  intros Hd H.
  pose proof (output_path_not_db_path od on db_folder dbn) as Hne.
  unfold execute_query, bind, lift in H. cbn [index nth_error] in H.
  destruct (get_query q w) as [[query|e] wq] eqn:Eq;
    pose proof (get_query_world _ _ _ _ Eq) as ->; [|injection H as _ <-; eauto].
  unfold try_except, Sqlite3.connect, Pd.read_sql_query, Pd.to_excel, Pd.drop,
    Sqlite3.close, print, ret, raise, set_entries, Sqlite3.connection in H.
  rewrite Hd in H. cbv beta iota in H. rewrite Hd in H.
  repeat (case_match; simplify_eq/=;
          rewrite ?lookup_insert_ne by done; rewrite ?lookup_insert_eq; eauto).
Qed.

(** X9: a run of [execute_query] that raises never deletes the database:
    where there was a database file before the run there is one after it,
    with or without [clear] among the arguments. *)
Theorem failed_run_keeps_database `{L : Libs} (q od on dbn : string) (rest : list string)
    (db_folder : string) (w w' : World) (d : Database) (e : exn) :
  entries w !! Os.path_join db_folder (dbn +++ ".db") = Some (File (Sqlite d)) ->
  execute_query (q :: od :: on :: dbn :: rest) db_folder w = (Raise e, w') ->
  exists d', entries w' !! Os.path_join db_folder (dbn +++ ".db") = Some (File (Sqlite d')).
Proof.
  intros Hd. rewrite execute_query_directive.
  destruct (execute_query [q; od; on; dbn] db_folder w) as [r1 w1] eqn:E.
  destruct (export_keeps_db_file _ _ _ _ _ _ _ _ _ Hd E) as [d' Hd'].
  destruct r1 as [[]|e1]; [|intros [= _ <-]; eauto].
  destruct rest as [|a4 [|a5 more]]; try discriminate.
  destruct (a4 =? "clear"); [|discriminate].
  now rewrite (delete_existing _ _ _ _ Hd').
Qed.

(** A query on a table that [sales] does not have, with [clear]. *)
Lemma failed_run_keeps_database_witness :
  exists d', entries (snd (@execute_query Demo.libs
                             ["SELECT * FROM nothing"; "/tmp"; "out"; "sales"; "clear"]
                             Demo.folder Demo.world))
               !! "/app/Databases/sales.db" = Some (File (Sqlite d')).
Proof.
  apply (@failed_run_keeps_database Demo.libs "SELECT * FROM nothing" "/tmp" "out" "sales"
           ["clear"] Demo.folder Demo.world _ [("orders", Demo.orders)]
           (Exception (msg_query_error "sales")) eq_refl).
  vm_compute. reflexivity.
Defined.

(** X10: when the engine raises on the query, the run stops there:
    [DatabaseError] comes out as the exception naming the database, any
    other exception as it is; no spreadsheet is written, nothing is
    printed, and a trailing [clear] deletes nothing. *)
Theorem query_error_mapping `{L : Libs} (q od on dbn : string) (rest : list string)
    (db_folder query : string) (w : World) (d : Database) (e : exn) :
  get_query q w = (Ok query, w) ->
  entries w !! Os.path_join db_folder (dbn +++ ".db") = Some (File (Sqlite d)) ->
  fst (sql_engine query d) = Raise e ->
  execute_query (q :: od :: on :: dbn :: rest) db_folder w
  = (Raise (match e with
            | DatabaseError => Exception (msg_query_error dbn)
            | _ => e
            end),
     mkWorld (<[Os.path_join db_folder (dbn +++ ".db")
                := File (Sqlite (snd (sql_engine query d)))]> (entries w))
       (stdout w)).
Proof.
  intros Hq Hd He. rewrite execute_query_directive.
  unfold execute_query, bind, lift. cbn [index nth_error]. rewrite Hq.
  unfold try_except, Sqlite3.connect, Pd.read_sql_query, Sqlite3.connection.
  rewrite Hd. cbv beta iota. rewrite Hd.
  destruct (sql_engine query d) as [r db']. cbn [fst snd] in *. subst r.
  destruct e; reflexivity.
Qed.

(** The query on a table that [sales] does not have. *)
Lemma query_error_mapping_witness :
  @execute_query Demo.libs ["SELECT * FROM nothing"; "/tmp"; "out"; "sales"; "clear"]
    Demo.folder Demo.world
  = (Raise (Exception "There is an error in the query. Did you import the table from an excel file into sales?"),
     mkWorld (<["/app/Databases/sales.db" := File (Sqlite [("orders", Demo.orders)])]>
                (entries Demo.world)) []).
Proof.
  exact (@query_error_mapping Demo.libs "SELECT * FROM nothing" "/tmp" "out" "sales"
           ["clear"] Demo.folder "SELECT * FROM nothing" Demo.world
           [("orders", Demo.orders)] DatabaseError eq_refl eq_refl eq_refl).
Defined.

(** ** Clearing and listing *)

Lemma under_folder_path (d n : string) :
  Str.starts_with_sep n = false -> Os.under d (Os.path_join d n) = true.
Proof.
  intros Hn. unfold Os.under. rewrite (path_join_relative d n Hn).
  rewrite strip_prefix_append. apply orb_true_r.
Qed.

Lemma under_self (d : string) : Os.under d d = true.
Proof. unfold Os.under. now rewrite String.eqb_refl. Qed.

(** X11: [main] asked to clear all data and to list the databases clears
    first: every path in the storage directory is gone, with the directory
    itself, what lies outside is untouched, and the listing that follows
    raises [FileNotFoundError].  When there is no storage directory, the
    clearing itself raises it. *)
Theorem clear_then_list `{L : Libs} (current_path : string) (w : World) :
  let db_folder := Os.path_join current_path "Databases" in
  let args := mkNamespace None None None None None true true in
  (entries w !! db_folder = Some Dir ->
     exists w',
       main args current_path w = (Raise FileNotFoundError, w')
       /\ entries w' !! db_folder = None
       /\ (forall n, Str.starts_with_sep n = false ->
                     entries w' !! Os.path_join db_folder n = None)
       /\ (forall k, Os.under db_folder k = false -> entries w' !! k = entries w !! k)
       /\ stdout w' = (stdout w ++ [Line "Data from all SQlite Databases are deleted."])%list)
  /\ (entries w !! db_folder = None ->
      main args current_path w = (Raise FileNotFoundError, w)).
Proof.
  intros db_folder args.
  destruct (main_db_folder_plain current_path) as [_ Hplain]. fold db_folder in Hplain.
  split; intros Hf.
  - assert (Hgone : forall k, Os.under db_folder k = true ->
              filter (fun kv : string * node => Os.under db_folder kv.1 = false) (entries w) !! k
              = None).
    { intros k Hk. apply map_lookup_filter_None. right. intros x _ Hc.
      change (Os.under db_folder k = false) in Hc. congruence. }
    eexists. split.
    + unfold main, args. cbn [build_db_name delete_db_name file_to_import_args
        query_to_execute list_table_db_name list_all_db_name clear_all_data].
      fold db_folder. unfold list_db, bind, ret, Os.rmtree, print, Os.listdir.
      rewrite Hf. cbn [set_entries entries stdout].
      rewrite (Hgone _ (under_self _)), (plain_folder_not_root _ Hplain). reflexivity.
    + cbn [entries stdout]. split; [apply Hgone, under_self|].
      split; [intros n Hn; apply Hgone, under_folder_path, Hn|].
      split; [|reflexivity]. intros k Hk.
      destruct (entries w !! k) as [x|] eqn:Ek.
      * now apply map_lookup_filter_Some.
      * apply map_lookup_filter_None. now left.
  - unfold main, args. cbn [build_db_name delete_db_name file_to_import_args
      query_to_execute list_table_db_name list_all_db_name clear_all_data].
    fold db_folder. unfold bind, ret, Os.rmtree. now rewrite Hf.
Qed.

(** Clearing and listing in the example world. *)
Lemma clear_then_list_witness :
  exists w',
    @main Demo.libs (mkNamespace None None None None None true true) "/app" Demo.world
    = (Raise FileNotFoundError, w')
    /\ entries w' !! "/app/Databases" = None
    /\ (forall n, Str.starts_with_sep n = false ->
                  entries w' !! Os.path_join "/app/Databases" n = None)
    /\ (forall k, Os.under "/app/Databases" k = false ->
                  entries w' !! k = entries Demo.world !! k)
    /\ stdout w' = [Line "Data from all SQlite Databases are deleted."].
Proof.
  exact (proj1 (@clear_then_list Demo.libs "/app" Demo.world) eq_refl).
Defined.

Lemma for_each_print (names : list string) (w : World) :
  for_each names (fun db => print [db]) w
  = (Ok tt, mkWorld (entries w) (stdout w ++ List.map Line names)).
Proof.
  revert w. induction names as [|n r IH]; intros w.
  - cbn. rewrite app_nil_r. now destruct w.
  - cbn [for_each]. unfold bind, print at 1. rewrite IH. cbn [entries stdout List.map Str.join].
    now rewrite <- app_assoc.
Qed.

(** The keys of the file system that give a name in directory [d] give
    different names. *)
Lemma child_name_inj (d k k' n : string) :
  Os.child_name d k = Some n -> Os.child_name d k' = Some n -> k = k'.
Proof.
  unfold Os.child_name. intros H H'.
  destruct (Os.strip_prefix _ k) as [m|] eqn:E; [|discriminate].
  destruct (Os.strip_prefix _ k') as [m'|] eqn:E'; [|discriminate].
  destruct (Str.truthy m && _); [|discriminate].
  destruct (Str.truthy m' && _); [|discriminate].
  injection H as ->. injection H' as ->.
  apply strip_prefix_Some in E, E'. congruence.
Qed.

Lemma NoDup_omap_inj {A B : Type} (f : A -> option B) (l : list A) :
  (forall x y z, x ∈ l -> y ∈ l -> f x = Some z -> f y = Some z -> x = y) ->
  NoDup l -> NoDup (omap f l).
Proof.
  intros Hinj Hnd. induction Hnd as [|x l Hx Hnd IH]; [constructor|].
  cbn [omap list_omap]. destruct (f x) as [z|] eqn:Ez.
  - constructor.
    + rewrite list_elem_of_omap. intros (y & Hy & Ey).
      apply Hx. rewrite (Hinj x y z); auto; [left | now right].
    + apply IH. intros a b c Ha Hb. apply Hinj; now right.
  - apply IH. intros a b c Ha Hb. apply Hinj; now right.
Qed.

Lemma NoDup_children (fs : gmap string node) (d : string) :
  NoDup (Os.children fs d).
Proof.
  unfold Os.children. apply NoDup_omap_inj; [|apply NoDup_map_to_list].
  intros [k x] [k' x'] n Hin Hin' Hc Hc'. cbn [fst] in Hc, Hc'.
  pose proof (child_name_inj _ _ _ _ Hc Hc') as <-.
  apply elem_of_map_to_list in Hin, Hin'. congruence.
Qed.

(** X12: [list_db] prints exactly one line for each plain name that has an
    entry in the storage directory, file or directory, with or without the
    extension [.db]: the lines are those names, each once and no other;
    it changes no file.  Without the storage directory it raises
    [FileNotFoundError]. *)
Theorem list_db_prints_entries (db_folder : string) (w : World) :
  (entries w !! db_folder = Some Dir ->
     exists names,
       list_db db_folder w
       = (Ok tt, mkWorld (entries w) (stdout w ++ List.map Line names))
       /\ NoDup names
       /\ forall n, n ∈ names
                    <-> Str.truthy n = true /\ Str.any Os.is_sep n = false
                        /\ is_Some (entries w !! Os.path_join db_folder n))
  /\ (entries w !! db_folder = None -> Os.is_root db_folder = false ->
      list_db db_folder w = (Raise FileNotFoundError, w)).
Proof.
  split.
  - intros Hf. exists (Os.children (entries w) db_folder). split; [|split].
    + unfold list_db, bind, Os.listdir. rewrite Hf. apply for_each_print.
    + apply NoDup_children.
    + intros n. apply elem_of_children.
  - intros Hf Hroot. unfold list_db, bind, Os.listdir. now rewrite Hf, Hroot.
Qed.

(** The listing of the example world is the one line [sales.db]. *)
Lemma list_db_prints_entries_witness :
  exists names,
    list_db Demo.folder Demo.world
    = (Ok tt, mkWorld (entries Demo.world) (List.map Line names))
    /\ NoDup names
    /\ "sales.db" ∈ names.
Proof.
  destruct (proj1 (list_db_prints_entries Demo.folder Demo.world) eq_refl)
    as (names & Hrun & Hnd & Hnames).
  exists names. split; [exact Hrun|]. split; [exact Hnd|].
  apply Hnames. repeat split. exists (File (Sqlite [("orders", Demo.orders)])).
  reflexivity.
Defined.

(** X13: [list_tables] prints the table names of an existing database and
    changes no file.  For a name that has no file in an existing storage
    directory it does not fail: it creates the empty database file and
    prints the empty list.  Only when the directory of the file is missing
    does it raise the exception naming the database. *)
Theorem list_tables_cases (db_name db_folder : string) (w : World) :
  let dbp := Os.path_join db_folder (db_name +++ ".db") in
  (forall d, entries w !! dbp = Some (File (Sqlite d)) ->
     list_tables db_name db_folder w
     = (Ok tt, mkWorld (entries w) (stdout w ++ [Rows (List.map fst d)])))
  /\ (entries w !! dbp = None -> Os.parent_exists (entries w) dbp = true ->
      list_tables db_name db_folder w
      = (Ok tt,
         mkWorld (<[dbp := File (Sqlite [])]> (entries w)) (stdout w ++ [Rows []])))
  /\ (entries w !! dbp = None -> Os.parent_exists (entries w) dbp = false ->
      list_tables db_name db_folder w
      = (Raise (Exception (msg_no_db_query db_name)), w)).
Proof.
  intros dbp.
  split; [|split]; intros; unfold list_tables, bind, try_except, Sqlite3.connect,
    Sqlite3.table_names, print_rows, Sqlite3.close, ret, Sqlite3.connection; fold dbp.
  - rewrite H. cbv beta iota. now rewrite H.
  - rewrite H, H0. cbn [set_entries entries]. now rewrite lookup_insert_eq.
  - now rewrite H, H0.
Qed.

(** The tables of [sales], and of [ghost], which has no file. *)
Lemma list_tables_cases_witness :
  list_tables "sales" Demo.folder Demo.world
  = (Ok tt, mkWorld (entries Demo.world) [Rows ["orders"]])
  /\ list_tables "ghost" Demo.folder Demo.world
     = (Ok tt,
        mkWorld (<["/app/Databases/ghost.db" := File (Sqlite [])]> (entries Demo.world))
          [Rows []]).
Proof.
  split.
  - exact (proj1 (list_tables_cases "sales" Demo.folder Demo.world) _ eq_refl).
  - exact (proj1 (proj2 (list_tables_cases "ghost" Demo.folder Demo.world)) eq_refl eq_refl).
Defined.

(** X14: deleting a database twice: the first call removes the file and
    prints its line, the second raises the exception naming the database;
    a deletion is not repeated silently. *)
Theorem delete_twice (db_name db_folder : string) (w : World) (c : content) :
  let p := Os.path_join db_folder (db_name +++ ".db") in
  entries w !! p = Some (File c) ->
  (delete_db_path db_name db_folder ;; delete_db_path db_name db_folder) w
  = (Raise (Exception (msg_no_db_delete db_name)),
     mkWorld (delete p (entries w))
       (stdout w ++ [Line (Str.join " " ["Successfully deleted SQLite Database ";
                                        quoted (db_name +++ ".db")])])).
Proof.
  intros p Hc. unfold bind. rewrite (delete_existing _ _ _ _ Hc).
  apply delete_missing. cbn [entries]. apply lookup_delete_eq.
Qed.

(** Deleting [sales] twice in the example world. *)
Lemma delete_twice_witness :
  (delete_db_path "sales" Demo.folder ;; delete_db_path "sales" Demo.folder) Demo.world
  = (Raise (Exception (msg_no_db_delete "sales")),
     mkWorld (delete "/app/Databases/sales.db" (entries Demo.world))
       [Line "Successfully deleted SQLite Database  'sales.db'"]).
Proof.
  exact (delete_twice "sales" Demo.folder Demo.world _ eq_refl).
Defined.

(** ** A query kept in a file *)

(** X15: a query given as a [.txt] file that has lines is run exactly as
    the text of the file given on the command line would be (the lines
    joined with nothing between them), provided that text does not itself
    end in [.txt]. *)
Theorem query_file_as_literal `{L : Libs} (path : string) (lines rest : list string)
    (db_folder : string) (w : World) :
  Str.suffix 4 path = ".txt" ->
  entries w !! path = Some (File (Text lines)) ->
  lines <> [] ->
  Str.suffix 4 (Str.join "" lines) <> ".txt" ->
  execute_query (path :: rest) db_folder w
  = execute_query (Str.join "" lines :: rest) db_folder w.
Proof.
  intros Hp Hf Hl Hq.
  assert (E1 : get_query path w = (Ok (Str.join "" lines), w)).
  { unfold get_query, bind, Os.readlines. rewrite Hp.
    cbn [String.eqb Ascii.eqb Bool.eqb]. rewrite Hf.
    destruct lines; [contradiction | reflexivity]. }
  assert (E2 : get_query (Str.join "" lines) w = (Ok (Str.join "" lines), w)).
  { unfold get_query. apply String.eqb_neq in Hq. now rewrite Hq. }
  unfold execute_query. unfold bind at 1 2. unfold lift at 1. cbn [index nth_error].
  rewrite E1. symmetry. unfold bind at 1 2. unfold lift at 1. cbn [index nth_error].
  now rewrite E2.
Qed.

(** The query on [orders] kept in a file of one line. *)
Lemma query_file_as_literal_witness :
  let w := mkWorld (<["/tmp/q.txt" := File (Text ["SELECT * FROM orders"])]>
                        (entries Demo.world)) [] in
  @execute_query Demo.libs ["/tmp/q.txt"; "/tmp"; "out"; "sales"] Demo.folder w
  = @execute_query Demo.libs ["SELECT * FROM orders"; "/tmp"; "out"; "sales"] Demo.folder w.
Proof.
  intros w.
  apply (@query_file_as_literal Demo.libs "/tmp/q.txt" ["SELECT * FROM orders"]
           ["/tmp"; "out"; "sales"] Demo.folder w); [reflexivity | reflexivity | | ];
    discriminate.
Defined.
